(** * emails.controller.ts: the SES notification summary endpoint

    A shallow embedding of [EmailsController.handleEmail] and of the typed
    object graph it reads (the classes [Header] ... [Root] and
    [ResponseDTO]), with the properties of the summary it computes.

    The controller calls two things that live outside the file: the
    [JsonConvert.deserializeObject] method of the json2typescript package
    and the JavaScript [Date] object. Both are interfaces here (type
    classes); the properties of [handleEmail] are proved for every
    implementation of them. What the decoder hands back is an object
    graph in which any object or array may be [null]; reading a property
    of [null] or [undefined] throws, as it does in the program. *)

From stdpp Require Import base option list strings gmap.
From Stdlib Require Import ZArith Ascii String DecimalString.

Open Scope Z_scope.
Open Scope string_scope.

(** ** The JavaScript runtime the controller relies on *)

Module Js.

(** A thrown value: an [Error] object with its [name] and [message]. *)
Record JsError := mkError { err_name : string; err_message : string }.

Definition TypeError (msg : string) : JsError := mkError "TypeError" msg.

(** A call either returns a value or throws. *)
Inductive outcome (A : Type) : Type :=
| Returned (a : A)
| Thrown (e : JsError).
Arguments Returned {A} a.
Arguments Thrown {A} e.

Definition bind {A B} (m : outcome A) (k : A -> outcome B) : outcome B :=
  match m with
  | Returned a => k a
  | Thrown e => Thrown e
  end.

(** A value typed as an object or an array: at run time it is the
    object, [null] or [undefined]. *)
Inductive maybe (A : Type) : Type :=
| Undefined
| Null
| Ref (a : A).
Arguments Undefined {A}.
Arguments Null {A}.
Arguments Ref {A} a.

(** [o.p], the property being read by [proj]: reading a property of
    [null] or [undefined] throws a [TypeError] (the message is V8's). *)
Definition get {A B} (o : maybe A) (p : string) (proj : A -> B) : outcome B :=
  match o with
  | Ref a => Returned (proj a)
  | Null =>
      Thrown (TypeError ("Cannot read properties of null (reading '" ++ p ++ "')"))
  | Undefined =>
      Thrown (TypeError ("Cannot read properties of undefined (reading '" ++ p ++ "')"))
  end.

(** [a[i]] on an array: the element, [undefined] past the end. *)
Definition at_index {A} (i : nat) (a : list (maybe A)) : maybe A :=
  from_option id Undefined (a !! i).

(** [s.split(sep)] for a one-character separator. Strings are byte
    strings (UTF-8); the byte of an ASCII separator such as '@' occurs
    in no multi-byte sequence, so splitting bytes and splitting UTF-16
    code units cut at the same places. The recursive call never gives
    the empty array, so the branch on [[]] is never taken. *)
Fixpoint split (sep : ascii) (s : string) : list string :=
  match s with
  | EmptyString => [EmptyString]
  | String c s' =>
      if Ascii.eqb c sep then EmptyString :: split sep s'
      else match split sep s' with
           | p :: ps => String c p :: ps
           | [] => [String c EmptyString]
           end
  end.

(** [parts[0]] of an array of strings that is known to be non-empty
    ([split] never returns an empty array, see [split_cons]). *)
Definition first (parts : list string) : string := hd EmptyString parts.

(** The [Date] object as far as the controller uses it:
    [new Date(s)] is a time value in milliseconds since the epoch, or
    NaN ([None]) when [s] is not recognised; [month_long t] is the
    month name [toLocaleString('default', { month: 'long' })] prints for
    a valid time value, in the host's locale and time zone. *)
Class DateRuntime := {
  Date_parse : string -> option Z;
  month_long : Z -> string
}.

(** [new Date(s).toLocaleString('default', { month: 'long' })]: an
    invalid date does not throw, it prints as "Invalid Date". *)
Definition Date_month `{DateRuntime} (s : string) : string :=
  match Date_parse s with
  | Some t => month_long t
  | None => "Invalid Date"
  end.

End Js.

Import Js.

(** [outcome] is a monad; stdpp's [x ← m; k] sequences two calls and
    stops at the first throw. *)
#[global] Instance outcome_ret : MRet outcome := @Returned.
#[global] Instance outcome_bind : MBind outcome := fun A B k m => bind m k.

(** ** Untyped input: a parsed JSON tree *)

(** The request body after JSON parsing. A mapping has one value per
    key. Numbers are integers: the one numeric field of the schema is a
    count of milliseconds, and an integer below 2^53 is exact as a
    JavaScript number, so [>] on such numbers is [<] on [Z] with the
    operands swapped. *)

#[local] Unset Elimination Schemes.
Inductive json : Type :=
| JNull
| JBool (b : bool)
| JNum (n : Z)
| JStr (s : string)
| JArr (items : list json)
| JObj (fields : gmap string json).
#[local] Set Elimination Schemes.

(** ** The typed object graph (classes [Header] ... [Root]) *)

(** Each class with the types its declaration gives: an instance in
    which every object and array property holds a value, as [new] builds
    it. *)

Module Header.
Record t := mk { name : string; value : string }.
End Header.

Module CommonHeaders.
Record t := mk {
  returnPath : string;
  from : list string;
  date : string;
  to : list string;
  messageId : string;
  subject : string
}.
End CommonHeaders.

Module Mail.
Record t := mk {
  timestamp : string;
  source : string;
  messageId : string;
  destination : list string;
  headersTruncated : bool;
  headers : list Header.t;
  commonHeaders : CommonHeaders.t
}.
End Mail.

Module Action.
Record t := mk { type : string; topicArn : string }.
End Action.

Module Verdict.
Record t := mk { status : string }.
End Verdict.

Module Receipt.
Record t := mk {
  timestamp : string;
  processingTimeMillis : Z;
  recipients : list string;
  spamVerdict : Verdict.t;
  virusVerdict : Verdict.t;
  spfVerdict : Verdict.t;
  dkimVerdict : Verdict.t;
  dmarcVerdict : Verdict.t;
  dmarcPolicy : string;
  action : Action.t
}.
End Receipt.

Module Ses.
Record t := mk { receipt : Receipt.t; mail : Mail.t }.
End Ses.

Module Record_.
Record t := mk { eventVersion : string; ses : Ses.t; eventSource : string }.
End Record_.

Module Root.
Record t := mk { Records : list Record_.t }.
End Root.

Record ResponseDTO := mkResponseDTO {
  spam : bool;
  virus : bool;
  dns : bool;
  mes : string;
  retrasado : bool;
  emisor : string;
  receptor : list string
}.

(** ** The classes at run time *)

(** The TypeScript types say [Verdict], [string[]], ...; the values
    behind them are references, and a decoder may leave [null] in any
    property typed as an object or an array. [Header], [Action] and
    [Verdict] have text properties only and are used as they are. *)
Module Nullable.

Module CommonHeaders.
Record t := mk {
  returnPath : string;
  from : maybe (list string);
  date : string;
  to : maybe (list string);
  messageId : string;
  subject : string
}.
End CommonHeaders.

Module Mail.
Record t := mk {
  timestamp : string;
  source : string;
  messageId : string;
  destination : maybe (list string);
  headersTruncated : bool;
  headers : maybe (list (maybe Header.t));
  commonHeaders : maybe CommonHeaders.t
}.
End Mail.

Module Receipt.
Record t := mk {
  timestamp : string;
  processingTimeMillis : Z;
  recipients : maybe (list string);
  spamVerdict : maybe Verdict.t;
  virusVerdict : maybe Verdict.t;
  spfVerdict : maybe Verdict.t;
  dkimVerdict : maybe Verdict.t;
  dmarcVerdict : maybe Verdict.t;
  dmarcPolicy : string;
  action : maybe Action.t
}.
End Receipt.

Module Ses.
Record t := mk { receipt : maybe Receipt.t; mail : maybe Mail.t }.
End Ses.

Module Record_.
Record t := mk { eventVersion : string; ses : maybe Ses.t; eventSource : string }.
End Record_.

Module Root.
Record t := mk { Records : maybe (list (maybe Record_.t)) }.
End Root.

End Nullable.

(** A fully populated instance (the modules [Header] ... [Root] above:
    every object and array property holds a value) as a run-time graph
    without a [null] in it. *)
Module Populated.

Definition CommonHeaders (c : CommonHeaders.t) : Nullable.CommonHeaders.t :=
  {| Nullable.CommonHeaders.returnPath := CommonHeaders.returnPath c;
     Nullable.CommonHeaders.from := Ref (CommonHeaders.from c);
     Nullable.CommonHeaders.date := CommonHeaders.date c;
     Nullable.CommonHeaders.to := Ref (CommonHeaders.to c);
     Nullable.CommonHeaders.messageId := CommonHeaders.messageId c;
     Nullable.CommonHeaders.subject := CommonHeaders.subject c |}.

Definition Mail (m : Mail.t) : Nullable.Mail.t :=
  {| Nullable.Mail.timestamp := Mail.timestamp m;
     Nullable.Mail.source := Mail.source m;
     Nullable.Mail.messageId := Mail.messageId m;
     Nullable.Mail.destination := Ref (Mail.destination m);
     Nullable.Mail.headersTruncated := Mail.headersTruncated m;
     Nullable.Mail.headers := Ref (List.map Ref (Mail.headers m));
     Nullable.Mail.commonHeaders := Ref (CommonHeaders (Mail.commonHeaders m)) |}.

Definition Receipt (r : Receipt.t) : Nullable.Receipt.t :=
  {| Nullable.Receipt.timestamp := Receipt.timestamp r;
     Nullable.Receipt.processingTimeMillis := Receipt.processingTimeMillis r;
     Nullable.Receipt.recipients := Ref (Receipt.recipients r);
     Nullable.Receipt.spamVerdict := Ref (Receipt.spamVerdict r);
     Nullable.Receipt.virusVerdict := Ref (Receipt.virusVerdict r);
     Nullable.Receipt.spfVerdict := Ref (Receipt.spfVerdict r);
     Nullable.Receipt.dkimVerdict := Ref (Receipt.dkimVerdict r);
     Nullable.Receipt.dmarcVerdict := Ref (Receipt.dmarcVerdict r);
     Nullable.Receipt.dmarcPolicy := Receipt.dmarcPolicy r;
     Nullable.Receipt.action := Ref (Receipt.action r) |}.

Definition Ses (s : Ses.t) : Nullable.Ses.t :=
  {| Nullable.Ses.receipt := Ref (Receipt (Ses.receipt s));
     Nullable.Ses.mail := Ref (Mail (Ses.mail s)) |}.

Definition Record_ (r : Record_.t) : Nullable.Record_.t :=
  {| Nullable.Record_.eventVersion := Record_.eventVersion r;
     Nullable.Record_.ses := Ref (Ses (Record_.ses r));
     Nullable.Record_.eventSource := Record_.eventSource r |}.

Definition Root (r : Root.t) : Nullable.Root.t :=
  {| Nullable.Root.Records :=
       Ref (List.map (fun record => Ref (Record_ record)) (Root.Records r)) |}.

End Populated.

(** ** The controller *)

(** [jsonConvert.deserializeObject(body, Root)]: json2typescript's
    decoder, used at the class [Root] only. It returns a value typed
    [Root] or throws. *)
Class JsonConvert := deserializeObject : json -> outcome (maybe Nullable.Root.t).

(** The literal the verdicts are compared with. *)
Definition PASS : string := "PASS".

Section Controller.
Context `{JsonConvert} `{DateRuntime}.

(** [handleEmail], statement by statement, each property read in the
    order the source evaluates it. [root.Records[0]] is [undefined] on an
    empty array. [&&] evaluates its right operand only when the left one
    is true, so the DKIM and DMARC verdicts are read only then. [===] on
    two strings is [String.eqb], [>] on the millisecond count is [Z.ltb]
    with the operands swapped. *)
Definition handleEmail (body : json) : outcome ResponseDTO :=
  root ← deserializeObject body;
  records ← get root "Records" Nullable.Root.Records;
  record ← get records "0" (at_index 0);
  ses ← get record "ses" Nullable.Record_.ses;
  receipt ← get ses "receipt" Nullable.Ses.receipt;
  mail ← get ses "mail" Nullable.Ses.mail;
  spamVerdict ← get receipt "spamVerdict" Nullable.Receipt.spamVerdict;
  spamStatus ← get spamVerdict "status" Verdict.status;
  let spam := String.eqb spamStatus PASS in
  virusVerdict ← get receipt "virusVerdict" Nullable.Receipt.virusVerdict;
  virusStatus ← get virusVerdict "status" Verdict.status;
  let virus := String.eqb virusStatus PASS in
  spfVerdict ← get receipt "spfVerdict" Nullable.Receipt.spfVerdict;
  spfStatus ← get spfVerdict "status" Verdict.status;
  dns ← (if String.eqb spfStatus PASS then
           dkimVerdict ← get receipt "dkimVerdict" Nullable.Receipt.dkimVerdict;
           dkimStatus ← get dkimVerdict "status" Verdict.status;
           if String.eqb dkimStatus PASS then
             dmarcVerdict ← get receipt "dmarcVerdict" Nullable.Receipt.dmarcVerdict;
             dmarcStatus ← get dmarcVerdict "status" Verdict.status;
             mret (String.eqb dmarcStatus PASS)
           else mret false
         else mret false);
  timestamp ← get mail "timestamp" Nullable.Mail.timestamp;
  let mes := Date_month timestamp in
  millis ← get receipt "processingTimeMillis" Nullable.Receipt.processingTimeMillis;
  let retrasado := Z.ltb 1000 millis in
  source ← get mail "source" Nullable.Mail.source;
  let emisor := first (split "@" source) in
  destination ← get mail "destination" Nullable.Mail.destination;
  receptor ← get destination "map" (List.map (fun email => first (split "@" email)));
  mret (mkResponseDTO spam virus dns mes retrasado emisor receptor).

End Controller.

(** ** The decoding engine *)

Module Decoder.

(** Modelled from the spec: the part of ScalarCoercer the spec leaves
    open, "convert using the natural textual/numeric representation
    where unambiguous". Each conversion between two scalar kinds is a
    partial function; [None] is "not unambiguous", which falls back to
    the default. The json2typescript sources are not part of this
    repository. *)
Class Conversion := {
  text_of_number : Z -> option string;
  text_of_boolean : bool -> option string;
  number_of_text : string -> option Z;
  number_of_boolean : bool -> option Z;
  boolean_of_text : string -> option bool;
  boolean_of_number : Z -> option bool
}.

Section Engine.
Context `{Conversion}.

(** Modelled from the spec: ScalarCoercer, [coerce(value, text,
    default)]. The looked-up value is [None] for a missing key;
    [null], lists and mappings are not scalars and give the
    default. *)
Definition coerce_text (value : option json) (default : string) : string :=
  match value with
  | Some (JStr s) => s
  | Some (JNum n) => from_option id default (text_of_number n)
  | Some (JBool b) => from_option id default (text_of_boolean b)
  | Some JNull | Some (JArr _) | Some (JObj _) | None => default
  end.

(** Modelled from the spec: ScalarCoercer at the kind number. *)
Definition coerce_number (value : option json) (default : Z) : Z :=
  match value with
  | Some (JNum n) => n
  | Some (JStr s) => from_option id default (number_of_text s)
  | Some (JBool b) => from_option id default (number_of_boolean b)
  | Some JNull | Some (JArr _) | Some (JObj _) | None => default
  end.

(** Modelled from the spec: ScalarCoercer at the kind boolean. *)
Definition coerce_boolean (value : option json) (default : bool) : bool :=
  match value with
  | Some (JBool b) => b
  | Some (JStr s) => from_option id default (boolean_of_text s)
  | Some (JNum n) => from_option id default (boolean_of_number n)
  | Some JNull | Some (JArr _) | Some (JObj _) | None => default
  end.

(** Modelled from the spec: the input mapping a type is decoded
    from; a value that is not a mapping has no keys. *)
Definition mapping_of (value : json) : gmap string json :=
  match value with
  | JObj fields => fields
  | _ => ∅
  end.

(** Modelled from the spec: the Decoder's rule for a field of shape
    [Nested(T)], [decode] being the decoder of [T]. *)
Definition nested {T} (decode : json -> T) (value : option json) : T :=
  match value with
  | Some (JObj fields) => decode (JObj fields)
  | _ => decode (JObj ∅)
  end.

(** Modelled from the spec: the Decoder's rule for a field of shape
    [ListOfScalar(kind)], [coerce] being the coercer of the kind
    applied to one element. *)
Definition list_of_scalar {A} (coerce : option json -> A) (value : option json) : list A :=
  match value with
  | Some (JArr items) => List.map (fun item => coerce (Some item)) items
  | _ => []
  end.

(** Modelled from the spec: the Decoder's rule for a field of shape
    [ListOfNested(T)]. *)
Definition list_of_nested {T} (decode : json -> T) (value : option json) : list T :=
  match value with
  | Some (JArr items) => List.map (fun item => nested decode (Some item)) items
  | _ => []
  end.

Definition text (value : option json) : string := coerce_text value "".
Definition number (value : option json) : Z := coerce_number value 0.
Definition boolean (value : option json) : bool := coerce_boolean value false.

(** The schema is the source's: one line per [@JsonProperty], with
    the key, the expected shape and (for scalars) the initialiser of
    the class field as default. *)
Definition decode_Header (value : json) : Header.t :=
  let o := mapping_of value in
  {| Header.name := text (o !! "name");
     Header.value := text (o !! "value") |}.

Definition decode_CommonHeaders (value : json) : CommonHeaders.t :=
  let o := mapping_of value in
  {| CommonHeaders.returnPath := text (o !! "returnPath");
     CommonHeaders.from := list_of_scalar text (o !! "from");
     CommonHeaders.date := text (o !! "date");
     CommonHeaders.to := list_of_scalar text (o !! "to");
     CommonHeaders.messageId := text (o !! "messageId");
     CommonHeaders.subject := text (o !! "subject") |}.

Definition decode_Mail (value : json) : Mail.t :=
  let o := mapping_of value in
  {| Mail.timestamp := text (o !! "timestamp");
     Mail.source := text (o !! "source");
     Mail.messageId := text (o !! "messageId");
     Mail.destination := list_of_scalar text (o !! "destination");
     Mail.headersTruncated := boolean (o !! "headersTruncated");
     Mail.headers := list_of_nested decode_Header (o !! "headers");
     Mail.commonHeaders := nested decode_CommonHeaders (o !! "commonHeaders") |}.

Definition decode_Action (value : json) : Action.t :=
  let o := mapping_of value in
  {| Action.type := text (o !! "type");
     Action.topicArn := text (o !! "topicArn") |}.

Definition decode_Verdict (value : json) : Verdict.t :=
  let o := mapping_of value in
  {| Verdict.status := text (o !! "status") |}.

Definition decode_Receipt (value : json) : Receipt.t :=
  let o := mapping_of value in
  {| Receipt.timestamp := text (o !! "timestamp");
     Receipt.processingTimeMillis := number (o !! "processingTimeMillis");
     Receipt.recipients := list_of_scalar text (o !! "recipients");
     Receipt.spamVerdict := nested decode_Verdict (o !! "spamVerdict");
     Receipt.virusVerdict := nested decode_Verdict (o !! "virusVerdict");
     Receipt.spfVerdict := nested decode_Verdict (o !! "spfVerdict");
     Receipt.dkimVerdict := nested decode_Verdict (o !! "dkimVerdict");
     Receipt.dmarcVerdict := nested decode_Verdict (o !! "dmarcVerdict");
     Receipt.dmarcPolicy := text (o !! "dmarcPolicy");
     Receipt.action := nested decode_Action (o !! "action") |}.

Definition decode_Ses (value : json) : Ses.t :=
  let o := mapping_of value in
  {| Ses.receipt := nested decode_Receipt (o !! "receipt");
     Ses.mail := nested decode_Mail (o !! "mail") |}.

Definition decode_Record (value : json) : Record_.t :=
  let o := mapping_of value in
  {| Record_.eventVersion := text (o !! "eventVersion");
     Record_.ses := nested decode_Ses (o !! "ses");
     Record_.eventSource := text (o !! "eventSource") |}.

Definition decode_Root (value : json) : Root.t :=
  let o := mapping_of value in
  {| Root.Records := list_of_nested decode_Record (o !! "Records") |}.

(** Modelled from the spec: [decode(Root, value)] never raises. *)
#[export] Instance tolerant : JsonConvert :=
  fun body => Returned (Ref (Populated.Root (decode_Root body))).

End Engine.

End Decoder.

(** ** Instances built by [new]: the field initialisers of each class *)

Module New.
Definition Header : Header.t := Header.mk "" "".
Definition CommonHeaders : CommonHeaders.t := CommonHeaders.mk "" [] "" [] "" "".
Definition Mail : Mail.t := Mail.mk "" "" "" [] false [] CommonHeaders.
Definition Action : Action.t := Action.mk "" "".
Definition Verdict : Verdict.t := Verdict.mk "".
Definition Receipt : Receipt.t :=
  Receipt.mk "" 0 [] Verdict Verdict Verdict Verdict Verdict "" Action.
Definition Ses : Ses.t := Ses.mk Receipt Mail.
Definition Record_ : Record_.t := Record_.mk "" Ses "".
Definition Root : Root.t := Root.mk [].
End New.

(** ** Re-serialization *)

Module Serializer.

Definition texts (l : list string) : json := JArr (List.map JStr l).

(** Modelled from the spec: "a correct re-serialization of a decoded
    instance", field for field: every field under its own key, text as
    a JSON string, a number as a JSON number, a boolean as a JSON
    boolean, a list as a list, a nested instance as a mapping. *)
Definition serialize_Header (h : Header.t) : json :=
  JObj (list_to_map
    [("name", JStr (Header.name h)); ("value", JStr (Header.value h))]).

Definition serialize_CommonHeaders (c : CommonHeaders.t) : json :=
  JObj (list_to_map
    [("returnPath", JStr (CommonHeaders.returnPath c));
     ("from", texts (CommonHeaders.from c));
     ("date", JStr (CommonHeaders.date c));
     ("to", texts (CommonHeaders.to c));
     ("messageId", JStr (CommonHeaders.messageId c));
     ("subject", JStr (CommonHeaders.subject c))]).

Definition serialize_Mail (m : Mail.t) : json :=
  JObj (list_to_map
    [("timestamp", JStr (Mail.timestamp m));
     ("source", JStr (Mail.source m));
     ("messageId", JStr (Mail.messageId m));
     ("destination", texts (Mail.destination m));
     ("headersTruncated", JBool (Mail.headersTruncated m));
     ("headers", JArr (List.map serialize_Header (Mail.headers m)));
     ("commonHeaders", serialize_CommonHeaders (Mail.commonHeaders m))]).

Definition serialize_Action (a : Action.t) : json :=
  JObj (list_to_map
    [("type", JStr (Action.type a)); ("topicArn", JStr (Action.topicArn a))]).

Definition serialize_Verdict (v : Verdict.t) : json :=
  JObj (list_to_map [("status", JStr (Verdict.status v))]).

Definition serialize_Receipt (r : Receipt.t) : json :=
  JObj (list_to_map
    [("timestamp", JStr (Receipt.timestamp r));
     ("processingTimeMillis", JNum (Receipt.processingTimeMillis r));
     ("recipients", texts (Receipt.recipients r));
     ("spamVerdict", serialize_Verdict (Receipt.spamVerdict r));
     ("virusVerdict", serialize_Verdict (Receipt.virusVerdict r));
     ("spfVerdict", serialize_Verdict (Receipt.spfVerdict r));
     ("dkimVerdict", serialize_Verdict (Receipt.dkimVerdict r));
     ("dmarcVerdict", serialize_Verdict (Receipt.dmarcVerdict r));
     ("dmarcPolicy", JStr (Receipt.dmarcPolicy r));
     ("action", serialize_Action (Receipt.action r))]).

Definition serialize_Ses (s : Ses.t) : json :=
  JObj (list_to_map
    [("receipt", serialize_Receipt (Ses.receipt s));
     ("mail", serialize_Mail (Ses.mail s))]).

Definition serialize_Record (r : Record_.t) : json :=
  JObj (list_to_map
    [("eventVersion", JStr (Record_.eventVersion r));
     ("ses", serialize_Ses (Record_.ses r));
     ("eventSource", JStr (Record_.eventSource r))]).

Definition serialize_Root (r : Root.t) : json :=
  JObj (list_to_map
    [("Records", JArr (List.map serialize_Record (Root.Records r)))]).

End Serializer.

(** ** One host: UTC clock, English month names *)

Module UtcHost.

Definition digit (c : ascii) : option Z :=
  let n := Z.of_N (N_of_ascii c) in
  if (48 <=? n)%Z && (n <=? 57)%Z then Some (n - 48) else None.

(** Reads exactly [k] decimal digits. *)
Fixpoint digits (k : nat) (acc : Z) (s : string) : option (Z * string) :=
  match k, s with
  | O, _ => Some (acc, s)
  | S k', String c s' => d ← digit c; digits k' (10 * acc + d) s'
  | S _, EmptyString => None
  end.

Definition expect (c : ascii) (s : string) : option string :=
  match s with
  | String c' s' => if Ascii.eqb c c' then Some s' else None
  | EmptyString => None
  end.

(** Days from 1970-01-01 to the civil date [y]-[m]-[d] (proleptic
    Gregorian calendar). *)
Definition days_from_civil (y m d : Z) : Z :=
  let y' := if (m <=? 2)%Z then y - 1 else y in
  let era := y' / 400 in
  let yoe := y' - era * 400 in
  let doy := (153 * (if (2 <? m)%Z then m - 3 else m + 9) + 2) / 5 + d - 1 in
  let doe := yoe * 365 + yoe / 4 - yoe / 100 + doy in
  era * 146097 + doe - 719468.

(** The month (1..12) of the day that is [z] days after 1970-01-01. *)
Definition month_from_days (z : Z) : Z :=
  let z' := z + 719468 in
  let era := z' / 146097 in
  let doe := z' - era * 146097 in
  let yoe := (doe - doe / 1460 + doe / 36524 - doe / 146096) / 365 in
  let doy := doe - (365 * yoe + yoe / 4 - yoe / 100) in
  let mp := (5 * doy + 2) / 153 in
  if (mp <? 10)%Z then mp + 3 else mp - 9.

Definition ms_per_day : Z := 86400000.

(** The time of day [THH:mm:ssZ] or [THH:mm:ss.sssZ], in
    milliseconds. *)
Definition parse_time (s : string) : option Z :=
  s ← expect "T" s;
  '(h, s) ← digits 2 0 s;
  s ← expect ":" s;
  '(mi, s) ← digits 2 0 s;
  s ← expect ":" s;
  '(sec, s) ← digits 2 0 s;
  '(ms, s) ← match expect "." s with
             | Some s' => digits 3 0 s'
             | None => Some (0, s)
             end;
  s ← expect "Z" s;
  if (h <=? 23)%Z && (mi <=? 59)%Z && (sec <=? 59)%Z && String.eqb s ""
  then Some (((h * 60 + mi) * 60 + sec) * 1000 + ms)
  else None.

(** [Date.parse] of a host that recognises the ECMAScript date-time
    string format in its forms [YYYY-MM-DD], [YYYY-MM-DDTHH:mm:ssZ]
    and [YYYY-MM-DDTHH:mm:ss.sssZ], and nothing else. *)
Definition parse (s : string) : option Z :=
  '(y, s) ← digits 4 0 s;
  s ← expect "-" s;
  '(m, s) ← digits 2 0 s;
  s ← expect "-" s;
  '(d, s) ← digits 2 0 s;
  t ← (if String.eqb s "" then Some 0 else parse_time s);
  if (1 <=? m)%Z && (m <=? 12)%Z && (1 <=? d)%Z && (d <=? 31)%Z
  then Some (days_from_civil y m d * ms_per_day + t)
  else None.

Definition month_names : list string :=
  ["January"; "February"; "March"; "April"; "May"; "June"; "July";
   "August"; "September"; "October"; "November"; "December"].

Definition month_name (t : Z) : string :=
  nth (Z.to_nat (month_from_days (t / ms_per_day) - 1)) month_names "".

#[export] Instance host : DateRuntime :=
  {| Date_parse := parse; month_long := month_name |}.

End UtcHost.

(** ** One reading of "natural representation": decimal numerals *)

Module Decimal.

Definition number_of_text (s : string) : option Z :=
  Z.of_int <$> NilZero.int_of_string s.

#[export] Instance conversion : Decoder.Conversion :=
  {| Decoder.text_of_number n := Some (NilZero.string_of_int (Z.to_int n));
     Decoder.text_of_boolean b := None;
     Decoder.number_of_text := number_of_text;
     Decoder.number_of_boolean b := None;
     Decoder.boolean_of_text s := None;
     Decoder.boolean_of_number n := None |}.

End Decimal.

Import Decoder Serializer.

(** ** Sample payloads *)

Definition obj (fields : list (string * json)) : json := JObj (list_to_map fields).

Definition verdict (status : string) : json := obj [("status", JStr status)].

(** A complete SES record: every key of every class is present and of
    the declared type. *)
Definition record_with (timestamp source : string) (destination : list string)
    (processingTimeMillis : Z) (spam virus spf dkim dmarc : string) : json :=
  obj [("eventVersion", JStr "1.0");
       ("eventSource", JStr "aws:ses");
       ("ses", obj
          [("receipt", obj
              [("timestamp", JStr timestamp);
               ("processingTimeMillis", JNum processingTimeMillis);
               ("recipients", texts destination);
               ("spamVerdict", verdict spam);
               ("virusVerdict", verdict virus);
               ("spfVerdict", verdict spf);
               ("dkimVerdict", verdict dkim);
               ("dmarcVerdict", verdict dmarc);
               ("dmarcPolicy", JStr "reject");
               ("action", obj [("type", JStr "SNS"); ("topicArn", JStr "arn:aws:sns:t")])]);
           ("mail", obj
              [("timestamp", JStr timestamp);
               ("source", JStr source);
               ("messageId", JStr "m-1");
               ("destination", texts destination);
               ("headersTruncated", JBool false);
               ("headers", JArr [obj [("name", JStr "From"); ("value", JStr source)]]);
               ("commonHeaders", obj
                  [("returnPath", JStr source);
                   ("from", texts [source]);
                   ("date", JStr timestamp);
                   ("to", texts destination);
                   ("messageId", JStr "m-1");
                   ("subject", JStr "hello")])])])].

Definition payload (records : list json) : json := obj [("Records", JArr records)].

Definition record_A : json :=
  record_with "2024-03-15T10:00:00Z" "alice@example.com"
    ["bob@example.com"; "carol@example.org"] 500
    "PASS" "FAIL" "PASS" "PASS" "PASS".

Definition scenario_A : json := payload [record_A].

Definition scenario_B : json := payload [].

(** A complete record whose timestamps are the empty text. *)
Definition record_no_timestamp : json :=
  record_with "" "alice@example.com" ["bob@example.com"] 500
    "PASS" "PASS" "PASS" "PASS" "PASS".

Definition no_timestamp : json := payload [record_no_timestamp].

(** A record whose [ses] has a receipt and no [mail] key. *)
Definition record_C : json :=
  obj [("ses", obj [("receipt", obj [("processingTimeMillis", JNum 1001)])])].

Definition scenario_C : json := payload [record_C].

(** [record_A] followed by a second, different record. *)
Definition two_records : json := payload [record_A; record_no_timestamp].

(** The fields of [record_A] that [handleEmail] reads, and nothing
    else: no [eventVersion], no headers, no [receipt.timestamp]. *)
Definition record_A_read_fields : json :=
  obj [("ses", obj
          [("receipt", obj
              [("processingTimeMillis", JNum 500);
               ("spamVerdict", verdict "PASS");
               ("virusVerdict", verdict "FAIL");
               ("spfVerdict", verdict "PASS");
               ("dkimVerdict", verdict "PASS");
               ("dmarcVerdict", verdict "PASS")]);
           ("mail", obj
              [("timestamp", JStr "2024-03-15T10:00:00Z");
               ("source", JStr "alice@example.com");
               ("destination", texts ["bob@example.com"; "carol@example.org"])])])].

(** A record whose addresses are the names of [scenario_A]'s summary. *)
Definition record_names_only : json :=
  record_with "2024-03-15T10:00:00Z" "alice" ["bob"; "carol"] 500
    "PASS" "FAIL" "PASS" "PASS" "PASS".

(** ** What the spec calls the local part *)

(** The substring of [s] strictly before the first occurrence of the
    character [c]; all of [s] when [c] does not occur. Written with the
    Standard Library's [index] and [substring], independently of
    [split]. *)
Definition substring_before (c : ascii) (s : string) : string :=
  match index 0 (String c EmptyString) s with
  | Some n => substring 0 n s
  | None => s
  end.

Definition has_char (c : ascii) (s : string) : Prop := In c (list_ascii_of_string s).

(** ** Shapes of a looked-up value *)

(** A looked-up value is [None] when the key is missing. *)
Definition is_scalar (value : option json) : Prop :=
  (exists s, value = Some (JStr s))
  \/ (exists n, value = Some (JNum n))
  \/ (exists b, value = Some (JBool b)).

Definition is_list (value : option json) : Prop :=
  exists items, value = Some (JArr items).

Definition is_mapping (value : option json) : Prop :=
  exists fields, value = Some (JObj fields).


(** ** What the spec promises of a declared field *)


(** The list field [field], read under [key]: the empty list when the
    value under the key is not a list; otherwise as long as the input
    list, position [i] holding [element] of the input's element [i]. *)
Definition list_field {T A} (decode : json -> T) (field : T -> list A)
    (key : string) (element : json -> A) : Prop :=
  (forall value, ~ is_list (mapping_of value !! key) -> field (decode value) = [])
  /\ (forall value items,
        mapping_of value !! key = Some (JArr items) ->
        List.length (field (decode value)) = List.length items
        /\ forall (i : nat) item,
             items !! i = Some item -> field (decode value) !! i = Some (element item)).

(** A mail whose [destination] holds a string and a [null]. *)
Definition mail_mixed_destination : json :=
  obj [("source", JStr "alice@example.com");
       ("destination", JArr [JStr "a@x"; JNull])].

(** ** Decoders that leave a [null] behind *)

(** A decoder that returns the graph [root] whatever the body. *)
Definition returning (root : maybe Nullable.Root.t) : JsonConvert :=
  fun _ => Returned root.

(** The receipt and the mail of [record_A], fully populated. *)
Definition receipt_A : Nullable.Receipt.t :=
  Populated.Receipt (Ses.receipt (Record_.ses (@decode_Record Decimal.conversion record_A))).
Definition mail_A : Nullable.Mail.t :=
  Populated.Mail (Ses.mail (Record_.ses (@decode_Record Decimal.conversion record_A))).

(** A root with one record around the given [ses]. *)
Definition root_around (ses : maybe Nullable.Ses.t) : maybe Nullable.Root.t :=
  Ref (Nullable.Root.mk (Ref [Ref (Nullable.Record_.mk "1.0" ses "aws:ses")])).

(** [receipt_A] with the verdicts replaced. *)
Definition with_verdicts (spam spf dkim : maybe Verdict.t) : Nullable.Receipt.t :=
  {| Nullable.Receipt.timestamp := Nullable.Receipt.timestamp receipt_A;
     Nullable.Receipt.processingTimeMillis :=
       Nullable.Receipt.processingTimeMillis receipt_A;
     Nullable.Receipt.recipients := Nullable.Receipt.recipients receipt_A;
     Nullable.Receipt.spamVerdict := spam;
     Nullable.Receipt.virusVerdict := Nullable.Receipt.virusVerdict receipt_A;
     Nullable.Receipt.spfVerdict := spf;
     Nullable.Receipt.dkimVerdict := dkim;
     Nullable.Receipt.dmarcVerdict := Nullable.Receipt.dmarcVerdict receipt_A;
     Nullable.Receipt.dmarcPolicy := Nullable.Receipt.dmarcPolicy receipt_A;
     Nullable.Receipt.action := Nullable.Receipt.action receipt_A |}.

(** [mail_A] with the timestamp and the destination replaced. *)
Definition with_destination (timestamp : string) (destination : maybe (list string))
    : Nullable.Mail.t :=
  {| Nullable.Mail.timestamp := timestamp;
     Nullable.Mail.source := Nullable.Mail.source mail_A;
     Nullable.Mail.messageId := Nullable.Mail.messageId mail_A;
     Nullable.Mail.destination := destination;
     Nullable.Mail.headersTruncated := Nullable.Mail.headersTruncated mail_A;
     Nullable.Mail.headers := Nullable.Mail.headers mail_A;
     Nullable.Mail.commonHeaders := Nullable.Mail.commonHeaders mail_A |}.

(** The controller on a decoder that returns [root], on the UTC host. *)
Definition handleEmail_on (root : maybe Nullable.Root.t) : outcome ResponseDTO :=
  @handleEmail (returning root) UtcHost.host JNull.

(** * Properties *)

(** The controller on the tolerant decoder and the UTC host: a closed
    function, for running the scenarios. *)
Definition handleEmail_utc : json -> outcome ResponseDTO :=
  @handleEmail (@tolerant Decimal.conversion) UtcHost.host.

(** The tolerant decoder with decimal conversions, at [Root] and at
    [Record]. *)
Definition root_of : json -> Root.t := @decode_Root Decimal.conversion.
Definition record_of : json -> Record_.t := @decode_Record Decimal.conversion.

Example scenario_B_throws :
  handleEmail_utc scenario_B =
  Thrown (TypeError "Cannot read properties of undefined (reading 'ses')").
Proof. vm_compute. reflexivity. Qed.

Example scenario_C_summary :
  handleEmail_utc scenario_C =
  Returned (mkResponseDTO false false false "Invalid Date" true "" []).
Proof. vm_compute. reflexivity. Qed.

Example scenario_A_summary :
  handleEmail_utc scenario_A =
  Returned (mkResponseDTO true false true "March" false "alice" ["bob"; "carol"]).
Proof. vm_compute. reflexivity. Qed.

(** What the controller does with a [null] the decoder left behind. *)
Example null_Records_throws :
  handleEmail_on (Ref (Nullable.Root.mk Null)) =
  Thrown (TypeError "Cannot read properties of null (reading '0')").
Proof. reflexivity. Qed.

Example null_record_throws :
  handleEmail_on (Ref (Nullable.Root.mk (Ref [Null]))) =
  Thrown (TypeError "Cannot read properties of null (reading 'ses')").
Proof. reflexivity. Qed.

Example null_ses_throws :
  handleEmail_on (root_around Null) =
  Thrown (TypeError "Cannot read properties of null (reading 'receipt')").
Proof. reflexivity. Qed.

Example null_spamVerdict_throws :
  handleEmail_on
    (root_around (Ref (Nullable.Ses.mk
       (Ref (with_verdicts Null (Ref (Verdict.mk "PASS")) (Ref (Verdict.mk "PASS"))))
       (Ref (with_destination "" (Ref []))))))
  = Thrown (TypeError "Cannot read properties of null (reading 'status')").
Proof. vm_compute. reflexivity. Qed.

Example null_mail_throws :
  handleEmail_on (root_around (Ref (Nullable.Ses.mk (Ref receipt_A) Null))) =
  Thrown (TypeError "Cannot read properties of null (reading 'timestamp')").
Proof. vm_compute. reflexivity. Qed.

Example null_destination_throws :
  handleEmail_on
    (root_around (Ref (Nullable.Ses.mk (Ref receipt_A)
       (Ref (with_destination "2024-03-15T10:00:00Z" Null)))))
  = Thrown (TypeError "Cannot read properties of null (reading 'map')").
Proof. vm_compute. reflexivity. Qed.

(** [&&] does not evaluate its right operand after a false left one: a
    [null] DKIM verdict behind an SPF "FAIL" is never read. *)
Example null_dkimVerdict_unread :
  handleEmail_on
    (root_around (Ref (Nullable.Ses.mk
       (Ref (with_verdicts (Ref (Verdict.mk "PASS")) (Ref (Verdict.mk "FAIL")) Null))
       (Ref mail_A))))
  = Returned (mkResponseDTO true false false "March" false "alice" ["bob"; "carol"]).
Proof. vm_compute. reflexivity. Qed.

Example null_dkimVerdict_throws :
  handleEmail_on
    (root_around (Ref (Nullable.Ses.mk
       (Ref (with_verdicts (Ref (Verdict.mk "PASS")) (Ref (Verdict.mk "PASS")) Null))
       (Ref mail_A))))
  = Thrown (TypeError "Cannot read properties of null (reading 'status')").
Proof. vm_compute. reflexivity. Qed.

(** ** [split] and the local part *)

Lemma split_cons sep s : exists p ps, split sep s = p :: ps.
Proof.
  induction s as [|c s IH]; simpl; [by eauto|].
  destruct (Ascii.eqb c sep); [by eauto|].
  destruct IH as (p & ps & ->). by eauto.
Qed.

Lemma first_split_String sep c s :
  first (split sep (String c s)) =
  if Ascii.eqb c sep then EmptyString else String c (first (split sep s)).
Proof.
  simpl. destruct (Ascii.eqb c sep); [done|].
  by destruct (split_cons sep s) as (p & ps & ->).
Qed.

Lemma substring_before_String sep c s :
  substring_before sep (String c s) =
  if Ascii.eqb c sep then EmptyString else String c (substring_before sep s).
Proof.
  unfold substring_before. simpl.
  destruct (ascii_dec sep c) as [->|Hne].
  - rewrite Ascii.eqb_refl. by destruct s.
  - assert (Ascii.eqb c sep = false) as -> by (apply Ascii.eqb_neq; congruence).
    by destruct (index 0 (String sep "") s).
Qed.

(** [s.split(sep)[0]] is the substring before the first [sep]. *)
Lemma first_split sep s : first (split sep s) = substring_before sep s.
Proof.
  induction s as [|c s IH]; [done|].
  rewrite first_split_String, substring_before_String. by rewrite IH.
Qed.

Lemma substring_before_no_sep sep s : ~ has_char sep (substring_before sep s).
Proof.
  unfold has_char. induction s as [|c s IH]; [by intros []|].
  rewrite substring_before_String.
  destruct (Ascii.eqb c sep) eqn:E; [by intros []|].
  simpl. intros [->|Hin]; [|done].
  by rewrite Ascii.eqb_refl in E.
Qed.

Lemma substring_before_whole sep s : ~ has_char sep s -> substring_before sep s = s.
Proof.
  unfold has_char. induction s as [|c s IH]; [done|].
  simpl. intros Hno. rewrite substring_before_String.
  destruct (Ascii.eqb c sep) eqn:E.
  - apply Ascii.eqb_eq in E. tauto.
  - f_equal. apply IH. tauto.
Qed.

Lemma substring_before_prefix sep s :
  has_char sep s ->
  exists rest, s = (substring_before sep s ++ String sep rest)%string.
Proof.
  unfold has_char. induction s as [|c s IH]; [by intros []|].
  simpl. intros Hin. rewrite substring_before_String.
  destruct (Ascii.eqb c sep) eqn:E.
  - apply Ascii.eqb_eq in E. subst c. by exists s.
  - destruct Hin as [->|Hin]; [by rewrite Ascii.eqb_refl in E|].
    destruct (IH Hin) as [rest Hrest]. exists rest.
    change (String c s = String c (substring_before sep s ++ String sep rest)).
    by f_equal.
Qed.

(** ** The controller, for every decoder and every host *)

(** The next value [handleEmail] branches on: the object of the next
    property read, or the condition of the next [&&]. *)
Ltac head_scrutinee t :=
  lazymatch t with
  | mbind _ ?m => head_scrutinee m
  | get ?o _ _ => constr:(o)
  | (if ?c then _ else _) => constr:(c)
  end.

(** One step of [handleEmail] in a hypothesis: case on that value. *)
Ltac read_next H :=
  cbn [get mbind outcome_bind bind mret outcome_ret] in H;
  lazymatch type of H with
  | ?t = _ => let x := head_scrutinee t in destruct x eqn:?
  end.

(** One step of [handleEmail] in the goal: use what is known of that
    value, or case on it. *)
Ltac run_next :=
  cbn [get mbind outcome_bind bind mret outcome_ret];
  lazymatch goal with
  | |- exists _, ?t = _ =>
      let x := head_scrutinee t in
      first [ match goal with Heq : x = _ |- _ => rewrite Heq end | destruct x ]
  end.

Lemma at_index_Ref {A} (l : list (maybe A)) (i : nat) a :
  at_index i l = Ref a <-> l !! i = Some (Ref a).
Proof.
  unfold at_index. destruct (l !! i) as [x|]; simpl; [|done].
  split; [by intros ->|by intros [= ->]].
Qed.

Section ControllerProperties.
Context `{JsonConvert} `{DateRuntime}.

(** What a returned summary was computed from: none of the objects
    read on the way was [null] or missing. *)
Lemma handleEmail_Returned_inv body dto :
  handleEmail body = Returned dto ->
  exists root records record ses receipt mail spamVerdict virusVerdict spfVerdict
         destination,
    deserializeObject body = Returned (Ref root)
    /\ Nullable.Root.Records root = Ref records
    /\ records !! 0%nat = Some (Ref record)
    /\ Nullable.Record_.ses record = Ref ses
    /\ Nullable.Ses.receipt ses = Ref receipt
    /\ Nullable.Ses.mail ses = Ref mail
    /\ Nullable.Receipt.spamVerdict receipt = Ref spamVerdict
    /\ Nullable.Receipt.virusVerdict receipt = Ref virusVerdict
    /\ Nullable.Receipt.spfVerdict receipt = Ref spfVerdict
    /\ Nullable.Mail.destination mail = Ref destination
    /\ spam dto = String.eqb (Verdict.status spamVerdict) PASS
    /\ virus dto = String.eqb (Verdict.status virusVerdict) PASS
    /\ mes dto = Date_month (Nullable.Mail.timestamp mail)
    /\ retrasado dto = Z.ltb 1000 (Nullable.Receipt.processingTimeMillis receipt)
    /\ emisor dto = first (split "@" (Nullable.Mail.source mail))
    /\ receptor dto = List.map (fun email => first (split "@" email)) destination
    /\ (dns dto = true <->
        Verdict.status spfVerdict = "PASS"
        /\ exists dkimVerdict dmarcVerdict,
             Nullable.Receipt.dkimVerdict receipt = Ref dkimVerdict
             /\ Nullable.Receipt.dmarcVerdict receipt = Ref dmarcVerdict
             /\ Verdict.status dkimVerdict = "PASS"
             /\ Verdict.status dmarcVerdict = "PASS").
Proof.
  unfold handleEmail. intros Hrun.
  destruct (deserializeObject body) as [root|e'] eqn:Hdec; [|discriminate].
  repeat (read_next Hrun; try discriminate).
  all: cbn [get mbind outcome_bind bind mret outcome_ret] in Hrun.
  all: injection Hrun as <-; subst root.
  all: match goal with Hi : at_index _ _ = Ref _ |- _ => apply at_index_Ref in Hi end.
  all: do 10 eexists; do 16 (split; [done|]); cbn [dns]; unfold PASS in *.
  - rewrite String.eqb_eq. split.
    + intros Hdmarc. split; [by apply String.eqb_eq|].
      do 2 eexists. do 2 (split; [done|]). split; [by apply String.eqb_eq|done].
    + intros (_ & dkim & dmarc & Hdkim & Hdmarc & _ & Hpass). congruence.
  - split; [done|]. intros (_ & dkim & dmarc & Hdkim & _ & Hpass & _).
    match goal with Hno : String.eqb _ _ = false |- _ => apply String.eqb_neq in Hno end.
    congruence.
  - split; [done|]. intros (Hpass & _).
    match goal with Hno : String.eqb _ _ = false |- _ => apply String.eqb_neq in Hno end.
    congruence.
Qed.

(** What [handleEmail] throws is the decoder's error or a
    [TypeError]. *)
Lemma handleEmail_Thrown_inv body e :
  handleEmail body = Thrown e ->
  deserializeObject body = Thrown e
  \/ ((exists root, deserializeObject body = Returned root)
      /\ err_name e = "TypeError").
Proof.
  unfold handleEmail. intros Hrun.
  destruct (deserializeObject body) as [root|e'] eqn:Hdec;
    [|left; by injection Hrun as <-].
  right. split; [by eexists|].
  repeat (read_next Hrun; try (injection Hrun as <-; reflexivity)).
  all: cbn [get mbind outcome_bind bind mret outcome_ret] in Hrun; discriminate.
Qed.

(** With every object it reads in place, [handleEmail] returns. *)
Lemma handleEmail_returns_nullable body root records record ses receipt mail
    spamVerdict virusVerdict spfVerdict dkimVerdict dmarcVerdict destination :
  deserializeObject body = Returned (Ref root) ->
  Nullable.Root.Records root = Ref records ->
  records !! 0%nat = Some (Ref record) ->
  Nullable.Record_.ses record = Ref ses ->
  Nullable.Ses.receipt ses = Ref receipt ->
  Nullable.Ses.mail ses = Ref mail ->
  Nullable.Receipt.spamVerdict receipt = Ref spamVerdict ->
  Nullable.Receipt.virusVerdict receipt = Ref virusVerdict ->
  Nullable.Receipt.spfVerdict receipt = Ref spfVerdict ->
  Nullable.Receipt.dkimVerdict receipt = Ref dkimVerdict ->
  Nullable.Receipt.dmarcVerdict receipt = Ref dmarcVerdict ->
  Nullable.Mail.destination mail = Ref destination ->
  exists dto, handleEmail body = Returned dto.
Proof.
  intros Hdec Hrecords Hfirst Hses Hreceipt Hmail Hspam Hvirus Hspf Hdkim Hdmarc Hdst.
  apply at_index_Ref in Hfirst.
  unfold handleEmail. rewrite Hdec.
  repeat run_next.
  all: cbn [get mbind outcome_bind bind mret outcome_ret]; by eexists.
Qed.

(** Once the body decodes and a first record exists, [handleEmail]
    returns, and each field of the summary is the expression the
    source computes from that record. *)
Lemma handleEmail_returns body root record :
  deserializeObject body = Returned (Ref (Populated.Root root)) ->
  Root.Records root !! 0%nat = Some record ->
  let receipt := Ses.receipt (Record_.ses record) in
  let mail := Ses.mail (Record_.ses record) in
  exists dto,
    handleEmail body = Returned dto
    /\ spam dto = String.eqb (Verdict.status (Receipt.spamVerdict receipt)) PASS
    /\ virus dto = String.eqb (Verdict.status (Receipt.virusVerdict receipt)) PASS
    /\ dns dto =
         String.eqb (Verdict.status (Receipt.spfVerdict receipt)) PASS
         && String.eqb (Verdict.status (Receipt.dkimVerdict receipt)) PASS
         && String.eqb (Verdict.status (Receipt.dmarcVerdict receipt)) PASS
    /\ mes dto = Date_month (Mail.timestamp mail)
    /\ retrasado dto = Z.ltb 1000 (Receipt.processingTimeMillis receipt)
    /\ emisor dto = first (split "@" (Mail.source mail))
    /\ receptor dto =
         List.map (fun email => first (split "@" email)) (Mail.destination mail).
Proof.
  intros Hdec Hfirst receipt mail.
  exists (mkResponseDTO
            (String.eqb (Verdict.status (Receipt.spamVerdict receipt)) PASS)
            (String.eqb (Verdict.status (Receipt.virusVerdict receipt)) PASS)
            (String.eqb (Verdict.status (Receipt.spfVerdict receipt)) PASS
             && String.eqb (Verdict.status (Receipt.dkimVerdict receipt)) PASS
             && String.eqb (Verdict.status (Receipt.dmarcVerdict receipt)) PASS)
            (Date_month (Mail.timestamp mail))
            (Z.ltb 1000 (Receipt.processingTimeMillis receipt))
            (first (split "@" (Mail.source mail)))
            (List.map (fun email => first (split "@" email)) (Mail.destination mail))).
  split; [|by repeat split].
  unfold handleEmail. rewrite Hdec.
  cbn [mbind outcome_bind bind get Populated.Root Nullable.Root.Records].
  unfold at_index. change (@List.map) with (@fmap list _).
  rewrite list_lookup_fmap, Hfirst.
  cbn -[split first Date_month String.eqb Z.ltb PASS].
  fold receipt.
  destruct (String.eqb (Verdict.status (Receipt.spfVerdict receipt)) PASS);
    [|reflexivity].
  cbn -[split first Date_month String.eqb Z.ltb PASS].
  destruct (String.eqb (Verdict.status (Receipt.dkimVerdict receipt)) PASS);
    reflexivity.
Qed.

(** Without a first record the read of [record.ses] throws. *)
Lemma handleEmail_throws body root :
  deserializeObject body = Returned (Ref root) ->
  Nullable.Root.Records root = Ref [] ->
  handleEmail body =
  Thrown (TypeError "Cannot read properties of undefined (reading 'ses')").
Proof.
  intros Hdec Hnil. unfold handleEmail. rewrite Hdec.
  cbn [mbind outcome_bind bind get]. by rewrite Hnil.
Qed.

(** A throw of the decoder is the throw of the controller. *)
Lemma handleEmail_decoder_throws body e :
  deserializeObject body = Thrown e -> handleEmail body = Thrown e.
Proof. intros Hdec. unfold handleEmail. by rewrite Hdec. Qed.

End ControllerProperties.

Lemma PASS_neq_empty : PASS <> "".
Proof. discriminate. Qed.

(** C5. For every decoded root with a first record, [handleEmail] returns
    a summary whose [dns] flag is true exactly when the statuses of
    [spfVerdict], [dkimVerdict] and [dmarcVerdict] of that record are all
    the literal "PASS"; it is false as soon as one of the three is the
    empty text, the status of a verdict that was absent from the input. *)
Theorem dns_iff_all_three_pass `{JsonConvert} `{DateRuntime} body root record :
  deserializeObject body = Returned (Ref (Populated.Root root)) ->
  Root.Records root !! 0%nat = Some record ->
  let receipt := Ses.receipt (Record_.ses record) in
  exists dto,
    handleEmail body = Returned dto
    /\ (dns dto = true <->
        Verdict.status (Receipt.spfVerdict receipt) = "PASS"
        /\ Verdict.status (Receipt.dkimVerdict receipt) = "PASS"
        /\ Verdict.status (Receipt.dmarcVerdict receipt) = "PASS")
    /\ (Verdict.status (Receipt.spfVerdict receipt) = ""
        \/ Verdict.status (Receipt.dkimVerdict receipt) = ""
        \/ Verdict.status (Receipt.dmarcVerdict receipt) = "" ->
        dns dto = false).
Proof.
  intros Hdec Hfirst receipt.
  destruct (handleEmail_returns body root record Hdec Hfirst)
    as (dto & Hret & _ & _ & Hdns & _).
  exists dto. split; [done|]. fold receipt in Hdns.
  assert (dns dto = true <->
          Verdict.status (Receipt.spfVerdict receipt) = "PASS"
          /\ Verdict.status (Receipt.dkimVerdict receipt) = "PASS"
          /\ Verdict.status (Receipt.dmarcVerdict receipt) = "PASS") as Hiff.
  { rewrite Hdns, !andb_true_iff, !String.eqb_eq. unfold PASS. tauto. }
  split; [done|].
  intros Hempty. apply not_true_is_false. rewrite Hiff.
  intros (Hspf & Hdkim & Hdmarc).
  destruct Hempty as [E|[E|E]]; congruence.
Qed.

(** C6. For every decoded root with a first record, [handleEmail] returns
    a summary whose [retrasado] (delayed) flag is true exactly when
    [receipt.processingTimeMillis] is strictly greater than 1000: false
    at 1000, true at 1001. *)
Theorem delayed_iff_above_1000 `{JsonConvert} `{DateRuntime} body root record :
  deserializeObject body = Returned (Ref (Populated.Root root)) ->
  Root.Records root !! 0%nat = Some record ->
  let millis := Receipt.processingTimeMillis (Ses.receipt (Record_.ses record)) in
  exists dto,
    handleEmail body = Returned dto
    /\ (retrasado dto = true <-> 1000 < millis)
    /\ (millis = 1000 -> retrasado dto = false)
    /\ (millis = 1001 -> retrasado dto = true).
Proof.
  intros Hdec Hfirst millis.
  destruct (handleEmail_returns body root record Hdec Hfirst)
    as (dto & Hret & _ & _ & _ & _ & Hdel & _).
  exists dto. split; [done|]. fold millis in Hdel. rewrite Hdel.
  split; [apply Z.ltb_lt|].
  split; intros ->; reflexivity.
Qed.

(** C7. For every decoded root with a first record, [handleEmail] returns
    a summary whose [emisor] (sender) is the substring of [mail.source]
    strictly before the first '@' (all of it when there is no '@'), and
    whose [receptor] (recipients) is [mail.destination] with the same rule
    applied to each element: same length, same order. *)
Theorem sender_and_recipients_are_local_parts
    `{JsonConvert} `{DateRuntime} body root record :
  deserializeObject body = Returned (Ref (Populated.Root root)) ->
  Root.Records root !! 0%nat = Some record ->
  let mail := Ses.mail (Record_.ses record) in
  exists dto,
    handleEmail body = Returned dto
    /\ emisor dto = substring_before "@" (Mail.source mail)
    /\ (~ has_char "@" (Mail.source mail) -> emisor dto = Mail.source mail)
    /\ (has_char "@" (Mail.source mail) ->
        exists rest, Mail.source mail = (emisor dto ++ String "@" rest)%string)
    /\ receptor dto = List.map (substring_before "@") (Mail.destination mail)
    /\ List.length (receptor dto) = List.length (Mail.destination mail)
    /\ (forall (i : nat) address,
          Mail.destination mail !! i = Some address ->
          receptor dto !! i = Some (substring_before "@" address)).
Proof.
  intros Hdec Hfirst mail.
  destruct (handleEmail_returns body root record Hdec Hfirst)
    as (dto & Hret & _ & _ & _ & _ & _ & Hem & Hrec).
  fold mail in Hem, Hrec.
  assert (receptor dto = List.map (substring_before "@") (Mail.destination mail)) as Hmap.
  { rewrite Hrec. apply map_ext. intros a. apply first_split. }
  rewrite first_split in Hem.
  exists dto. split; [done|]. split; [done|].
  split; [rewrite Hem; apply substring_before_whole|].
  split; [rewrite Hem; apply substring_before_prefix|].
  split; [done|]. rewrite Hmap. split; [apply length_map|].
  intros i address Hi. change (@List.map) with (@fmap list _).
  by rewrite list_lookup_fmap, Hi.
Qed.

(** C8. Two payloads that decode to roots with the same first record get
    the same summary, whatever follows the first record in either. *)
Theorem summary_reads_first_record_only
    `{JsonConvert} `{DateRuntime} body1 body2 root1 root2 record :
  deserializeObject body1 = Returned (Ref (Populated.Root root1)) ->
  deserializeObject body2 = Returned (Ref (Populated.Root root2)) ->
  Root.Records root1 !! 0%nat = Some record ->
  Root.Records root2 !! 0%nat = Some record ->
  exists dto, handleEmail body1 = Returned dto /\ handleEmail body2 = Returned dto.
Proof.
  intros Hdec1 Hdec2 Hfirst1 Hfirst2.
  destruct (handleEmail_returns body1 root1 record Hdec1 Hfirst1)
    as (dto1 & Hret1 & S1 & V1 & D1 & M1 & R1 & E1 & C1).
  destruct (handleEmail_returns body2 root2 record Hdec2 Hfirst2)
    as (dto2 & Hret2 & S2 & V2 & D2 & M2 & R2 & E2 & C2).
  exists dto1. split; [done|]. rewrite Hret2. f_equal.
  destruct dto1, dto2. simpl in *. congruence.
Qed.

(** C10. For every decoded root with a first record, the summary that
    [handleEmail] returns has no '@' in its [emisor] and no '@' in any
    element of its [receptor]. *)
Theorem summary_has_no_at_sign `{JsonConvert} `{DateRuntime} body root record :
  deserializeObject body = Returned (Ref (Populated.Root root)) ->
  Root.Records root !! 0%nat = Some record ->
  exists dto,
    handleEmail body = Returned dto
    /\ ~ has_char "@" (emisor dto)
    /\ Forall (fun recipient => ~ has_char "@" recipient) (receptor dto).
Proof.
  intros Hdec Hfirst.
  destruct (handleEmail_returns body root record Hdec Hfirst)
    as (dto & Hret & _ & _ & _ & _ & _ & Hem & Hrec).
  exists dto. split; [done|]. split.
  - rewrite Hem, first_split. apply substring_before_no_sep.
  - rewrite Hrec. apply List.Forall_map, List.Forall_forall. intros a _.
    rewrite first_split. apply substring_before_no_sep.
Qed.

(** ** The two failure kinds of the spec *)

(** C1, as the code has it. For every payload that decodes to a root
    whose [Records] is empty, [handleEmail] returns no summary: the read
    of [record.ses] on the undefined [Records[0]] throws the runtime's
    [TypeError]. *)
Theorem empty_records_throw_TypeError `{JsonConvert} `{DateRuntime} body root :
  deserializeObject body = Returned (Ref root) ->
  Nullable.Root.Records root = Ref [] ->
  (exists e, handleEmail body = Thrown e /\ err_name e = "TypeError")
  /\ (forall dto, handleEmail body <> Returned dto).
Proof.
  intros Hdec Hnil. rewrite (handleEmail_throws body root Hdec Hnil).
  split; [by eexists|]. intros dto. discriminate.
Qed.

(** C1 as stated fails on the payload whose [Records] is the empty list:
    what is thrown there is named "TypeError", not "EmptyRecordSet". *)
Lemma empty_records_not_EmptyRecordSet :
  handleEmail_utc scenario_B =
    Thrown (TypeError "Cannot read properties of undefined (reading 'ses')")
  /\ ~ (exists e, handleEmail_utc scenario_B = Thrown e
                  /\ err_name e = "EmptyRecordSet").
Proof.
  assert (handleEmail_utc scenario_B =
          Thrown (TypeError "Cannot read properties of undefined (reading 'ses')"))
    as Hrun by (vm_compute; reflexivity).
  split; [done|]. rewrite Hrun. intros (e & [= <-] & Hname). discriminate.
Qed.

(** C2, as the code has it. For every decoded root with a first record
    whose [mail.timestamp] the host's [Date] does not recognise, the
    timestamp is not reported: whatever [handleEmail] throws is the
    decoder's own error or the runtime's [TypeError] of reading a property
    of a [null] or missing object, never an "InvalidTimestamp"; every
    summary it returns has the [mes] (month) "Invalid Date"; and it does
    return one when the receipt, its five verdicts and [mail.destination]
    are not [null]. *)
Theorem invalid_timestamp_gives_Invalid_Date
    `{JsonConvert} `{DateRuntime} body root records record ses mail :
  deserializeObject body = Returned (Ref root) ->
  Nullable.Root.Records root = Ref records ->
  records !! 0%nat = Some (Ref record) ->
  Nullable.Record_.ses record = Ref ses ->
  Nullable.Ses.mail ses = Ref mail ->
  Date_parse (Nullable.Mail.timestamp mail) = None ->
  (forall dto, handleEmail body = Returned dto -> mes dto = "Invalid Date")
  /\ (forall e, handleEmail body = Thrown e ->
        err_name e = "TypeError" /\ err_name e <> "InvalidTimestamp")
  /\ (forall receipt spamVerdict virusVerdict spfVerdict dkimVerdict dmarcVerdict
             destination,
        Nullable.Ses.receipt ses = Ref receipt ->
        Nullable.Receipt.spamVerdict receipt = Ref spamVerdict ->
        Nullable.Receipt.virusVerdict receipt = Ref virusVerdict ->
        Nullable.Receipt.spfVerdict receipt = Ref spfVerdict ->
        Nullable.Receipt.dkimVerdict receipt = Ref dkimVerdict ->
        Nullable.Receipt.dmarcVerdict receipt = Ref dmarcVerdict ->
        Nullable.Mail.destination mail = Ref destination ->
        exists dto, handleEmail body = Returned dto /\ mes dto = "Invalid Date").
Proof.
  intros Hdec Hrecords Hfirst Hses Hmail Hnan.
  assert (forall dto, handleEmail body = Returned dto -> mes dto = "Invalid Date")
    as Hmes.
  { intros dto Hret.
    destruct (handleEmail_Returned_inv body dto Hret)
      as (root' & records' & record' & ses' & receipt' & mail' & ? & ? & ? & ?
          & Hdec' & Hrecords' & Hfirst' & Hses' & _ & Hmail' & _ & _ & _ & _
          & _ & _ & -> & _).
    rewrite Hdec in Hdec'. injection Hdec' as <-.
    rewrite Hrecords in Hrecords'. injection Hrecords' as <-.
    rewrite Hfirst in Hfirst'. injection Hfirst' as <-.
    rewrite Hses in Hses'. injection Hses' as <-.
    rewrite Hmail in Hmail'. injection Hmail' as <-.
    unfold Date_month. by rewrite Hnan. }
  split; [done|]. split.
  - intros e Hthrown.
    destruct (handleEmail_Thrown_inv body e Hthrown) as [Hdec'|[_ Hname]];
      [by rewrite Hdec in Hdec'|].
    by rewrite Hname.
  - intros receipt spamVerdict virusVerdict spfVerdict dkimVerdict dmarcVerdict
      destination Hreceipt Hspam Hvirus Hspf Hdkim Hdmarc Hdst.
    destruct (handleEmail_returns_nullable body root records record ses receipt mail
                spamVerdict virusVerdict spfVerdict dkimVerdict dmarcVerdict
                destination) as [dto Hret]; try done.
    exists dto. split; [done|]. by apply Hmes.
Qed.

(** C2 as stated fails on a complete record whose [mail.timestamp] is
    the empty text: the host does not recognise it, and a summary is
    returned all the same. *)
Lemma invalid_timestamp_not_reported :
  @Date_parse UtcHost.host "" = None
  /\ handleEmail_utc no_timestamp =
       Returned (mkResponseDTO true true true "Invalid Date" false "alice" ["bob"])
  /\ ~ (exists e, handleEmail_utc no_timestamp = Thrown e
                  /\ err_name e = "InvalidTimestamp").
Proof.
  assert (handleEmail_utc no_timestamp =
          Returned (mkResponseDTO true true true "Invalid Date" false "alice" ["bob"]))
    as Hrun by (vm_compute; reflexivity).
  split; [reflexivity|]. split; [done|].
  rewrite Hrun. intros (e & Hthrown & _). discriminate.
Qed.

(** ** The decoding engine *)

Section DecoderProperties.
Context `{Conversion}.

(** Lookups in a mapping written as a list of bindings. *)
Ltac fields :=
  cbn [mapping_of list_to_map foldr fst snd uncurry curry obj];
  repeat (rewrite lookup_insert_eq || rewrite lookup_insert_ne by done).

Lemma scalar_defaults value :
  ~ is_scalar value -> text value = "" /\ number value = 0 /\ boolean value = false.
Proof.
  intros Hno. destruct value as [[]|]; try done; exfalso; apply Hno;
    unfold is_scalar; eauto.
Qed.

Lemma list_of_scalar_default {A} (coerce : option json -> A) value :
  ~ is_list value -> list_of_scalar coerce value = [].
Proof.
  intros Hno. destruct value as [[]|]; try done. exfalso. apply Hno. by eexists.
Qed.

Lemma list_of_nested_default {T} (decode : json -> T) value :
  ~ is_list value -> list_of_nested decode value = [].
Proof.
  intros Hno. destruct value as [[]|]; try done. exfalso. apply Hno. by eexists.
Qed.

Lemma nested_default {T} (decode : json -> T) value :
  ~ is_mapping value -> nested decode value = decode (JObj ∅).
Proof.
  intros Hno. destruct value as [[]|]; try done. exfalso. apply Hno. by eexists.
Qed.

Lemma nested_mapping {T} (decode : json -> T) value :
  is_mapping (Some value) -> nested decode (Some value) = decode value.
Proof. by intros [fields [= ->]]. Qed.

(** Decoding the empty mapping gives the instance built by [new]. *)
Lemma decode_empty :
  decode_Header (JObj ∅) = New.Header
  /\ decode_CommonHeaders (JObj ∅) = New.CommonHeaders
  /\ decode_Mail (JObj ∅) = New.Mail
  /\ decode_Action (JObj ∅) = New.Action
  /\ decode_Verdict (JObj ∅) = New.Verdict
  /\ decode_Receipt (JObj ∅) = New.Receipt
  /\ decode_Ses (JObj ∅) = New.Ses
  /\ decode_Record (JObj ∅) = New.Record_
  /\ decode_Root (JObj ∅) = New.Root.
Proof. repeat split. Qed.

Lemma list_of_scalar_lookup {A} (coerce : option json -> A) items (i : nat) item :
  items !! i = Some item ->
  list_of_scalar coerce (Some (JArr items)) !! i = Some (coerce (Some item)).
Proof.
  intros Hi. unfold list_of_scalar. change (@List.map) with (@fmap list _).
  by rewrite list_lookup_fmap, Hi.
Qed.

Lemma list_of_nested_lookup {T} (decode : json -> T) items (i : nat) item :
  items !! i = Some item ->
  list_of_nested decode (Some (JArr items)) !! i = Some (nested decode (Some item)).
Proof.
  intros Hi. unfold list_of_nested. change (@List.map) with (@fmap list _).
  by rewrite list_lookup_fmap, Hi.
Qed.



(** *** Field by field *)

Lemma text_default value : ~ is_scalar value -> text value = "".
Proof. intros Hno. by destruct (scalar_defaults value Hno) as (? & ? & ?). Qed.












(** A list field follows its rule: unfold the class's decoder, keep
    the rule, read its default and its positions. *)
Ltac list_rule :=
  split;
  [ let value := fresh "value" in
    let Hbad := fresh "Hbad" in
    intros value Hbad;
    cbn -[text list_of_scalar list_of_nested nested mapping_of];
    first [ exact (list_of_scalar_default _ _ Hbad)
          | exact (list_of_nested_default _ _ Hbad) ]
  | let value := fresh "value" in
    let items := fresh "items" in
    let Hlist := fresh "Hlist" in
    intros value items Hlist;
    cbn -[text list_of_scalar list_of_nested nested mapping_of];
    rewrite Hlist; split;
    [ apply length_map
    | let i := fresh "i" in
      let item := fresh "item" in
      let Hi := fresh "Hi" in
      intros i item Hi;
      first [ exact (list_of_scalar_lookup _ _ _ _ Hi)
            | exact (list_of_nested_lookup _ _ _ _ Hi) ] ] ].

Lemma list_fields :
  list_field decode_CommonHeaders CommonHeaders.from "from"
    (fun item => text (Some item))
  /\ list_field decode_CommonHeaders CommonHeaders.to "to"
       (fun item => text (Some item))
  /\ list_field decode_Mail Mail.destination "destination"
       (fun item => text (Some item))
  /\ list_field decode_Mail Mail.headers "headers"
       (fun item => nested decode_Header (Some item))
  /\ list_field decode_Receipt Receipt.recipients "recipients"
       (fun item => text (Some item))
  /\ list_field decode_Root Root.Records "Records"
       (fun item => nested decode_Record (Some item)).
Proof. do 5 (split; [list_rule|]). list_rule. Qed.

(** *** Decoding what was serialized *)

Lemma texts_roundtrip l : list_of_scalar text (Some (texts l)) = l.
Proof.
  unfold list_of_scalar, texts. rewrite List.map_map. apply List.map_id.
Qed.

Lemma list_roundtrip {T} (decode : json -> T) (serialize : T -> json) l :
  (forall x, nested decode (Some (serialize x)) = x) ->
  list_of_nested decode (Some (JArr (List.map serialize l))) = l.
Proof.
  intros Hone. unfold list_of_nested. rewrite List.map_map.
  rewrite (map_ext _ id) by done. apply List.map_id.
Qed.

Lemma Header_roundtrip h : nested decode_Header (Some (serialize_Header h)) = h.
Proof.
  unfold serialize_Header, nested, decode_Header. fields. by destruct h.
Qed.

Lemma CommonHeaders_roundtrip c :
  nested decode_CommonHeaders (Some (serialize_CommonHeaders c)) = c.
Proof.
  unfold serialize_CommonHeaders, nested, decode_CommonHeaders. fields.
  rewrite !texts_roundtrip. by destruct c.
Qed.

Lemma Mail_roundtrip m : nested decode_Mail (Some (serialize_Mail m)) = m.
Proof.
  unfold serialize_Mail, nested, decode_Mail. fields.
  rewrite texts_roundtrip, CommonHeaders_roundtrip.
  rewrite (list_roundtrip _ _ _ Header_roundtrip). by destruct m.
Qed.

Lemma Action_roundtrip a : nested decode_Action (Some (serialize_Action a)) = a.
Proof.
  unfold serialize_Action, nested, decode_Action. fields. by destruct a.
Qed.

Lemma Verdict_roundtrip v : nested decode_Verdict (Some (serialize_Verdict v)) = v.
Proof.
  unfold serialize_Verdict, nested, decode_Verdict. fields. by destruct v.
Qed.

Lemma Receipt_roundtrip r : nested decode_Receipt (Some (serialize_Receipt r)) = r.
Proof.
  unfold serialize_Receipt, nested, decode_Receipt. fields.
  rewrite texts_roundtrip, !Verdict_roundtrip, Action_roundtrip. by destruct r.
Qed.

Lemma Ses_roundtrip s : nested decode_Ses (Some (serialize_Ses s)) = s.
Proof.
  unfold serialize_Ses, nested, decode_Ses. fields.
  rewrite Receipt_roundtrip, Mail_roundtrip. by destruct s.
Qed.

Lemma Record_roundtrip r : nested decode_Record (Some (serialize_Record r)) = r.
Proof.
  unfold serialize_Record, nested, decode_Record. fields.
  rewrite Ses_roundtrip. by destruct r.
Qed.

Lemma Root_roundtrip r : decode_Root (serialize_Root r) = r.
Proof.
  unfold serialize_Root, decode_Root. fields.
  rewrite (list_roundtrip _ _ _ Record_roundtrip). by destruct r.
Qed.

End DecoderProperties.


(** C4. A list field whose value is missing or is not a list decodes to
    the empty list. A list field whose value is a list decodes to a list
    of the same length in which position [i] holds the decoding of the
    input's element [i]: for a list of text a string element is itself and
    an element that is no scalar is the empty text; for a list of nested
    instances an element that is a mapping is decoded and any other
    element is the instance decoded from the empty mapping. Nothing is
    dropped or moved. This holds of the two list rules and of each of the
    six list fields of the schema: [from], [to], [destination], [headers],
    [recipients] and [Records]. *)
Theorem lists_keep_length_and_order `{Conversion} :
  (forall A (coerce : option json -> A) value,
      ~ is_list value -> list_of_scalar coerce value = [])
  /\ (forall T (decode : json -> T) value,
        ~ is_list value -> list_of_nested decode value = [])
  /\ (forall items,
        let out := list_of_scalar text (Some (JArr items)) in
        List.length out = List.length items
        /\ forall (i : nat) item, items !! i = Some item ->
             out !! i = Some (text (Some item))
             /\ (forall s, item = JStr s -> out !! i = Some s)
             /\ (~ is_scalar (Some item) -> out !! i = Some ""))
  /\ (forall T (decode : json -> T) items,
        let out := list_of_nested decode (Some (JArr items)) in
        List.length out = List.length items
        /\ forall (i : nat) item, items !! i = Some item ->
             (is_mapping (Some item) -> out !! i = Some (decode item))
             /\ (~ is_mapping (Some item) -> out !! i = Some (decode (JObj ∅))))
  /\ decode_Header (JObj ∅) = New.Header
  /\ decode_Record (JObj ∅) = New.Record_
  /\ list_field decode_CommonHeaders CommonHeaders.from "from"
       (fun item => text (Some item))
  /\ list_field decode_CommonHeaders CommonHeaders.to "to"
       (fun item => text (Some item))
  /\ list_field decode_Mail Mail.destination "destination"
       (fun item => text (Some item))
  /\ list_field decode_Mail Mail.headers "headers"
       (fun item => nested decode_Header (Some item))
  /\ list_field decode_Receipt Receipt.recipients "recipients"
       (fun item => text (Some item))
  /\ list_field decode_Root Root.Records "Records"
       (fun item => nested decode_Record (Some item))
  /\ (forall s, text (Some (JStr s)) = s)
  /\ (forall item, ~ is_scalar (Some item) -> text (Some item) = "")
  /\ (forall item, is_mapping (Some item) ->
        nested decode_Header (Some item) = decode_Header item
        /\ nested decode_Record (Some item) = decode_Record item)
  /\ (forall item, ~ is_mapping (Some item) ->
        nested decode_Header (Some item) = New.Header
        /\ nested decode_Record (Some item) = New.Record_).
Proof.
  split; [intros A coerce value; apply list_of_scalar_default|].
  split; [intros T decode value; apply list_of_nested_default|].
  split.
  { intros items out. split; [apply length_map|].
    intros i item Hi. subst out. rewrite (list_of_scalar_lookup _ _ _ _ Hi).
    split; [done|]. split; [by intros s ->|].
    intros Hno. by destruct (scalar_defaults _ Hno) as [-> _]. }
  split.
  { intros T decode items out. split; [apply length_map|].
    intros i item Hi. subst out. rewrite (list_of_nested_lookup _ _ _ _ Hi).
    split; intros Hshape.
    - by rewrite nested_mapping.
    - by rewrite nested_default. }
  split; [done|]. split; [done|].
  destruct list_fields as (Hfrom & Hto & Hdst & Hhdr & Hrcp & Hrec).
  do 6 (split; [done|]).
  split; [done|]. split; [intros item; apply text_default|].
  split.
  - intros item Hmap. by rewrite !nested_mapping.
  - intros item Hno. by rewrite !nested_default.
Qed.

(** C9. Decoding is round-trip stable: every payload decodes, and
    serializing the decoded root field for field and decoding that again
    gives the same root. *)
Theorem decoding_is_roundtrip_stable `{Conversion} body :
  exists root,
    deserializeObject body = Returned (Ref (Populated.Root root))
    /\ deserializeObject (serialize_Root root) = Returned (Ref (Populated.Root root))
    /\ decode_Root (serialize_Root (decode_Root body)) = decode_Root body.
Proof.
  exists (decode_Root body). split; [done|].
  split; [|apply Root_roundtrip].
  unfold deserializeObject, tolerant. by rewrite Root_roundtrip.
Qed.

(** ** The theorems at the sample payloads *)

Lemma dns_iff_all_three_pass_witness :
  exists dto, handleEmail_utc scenario_A = Returned dto /\ dns dto = true.
Proof.
  destruct (dns_iff_all_three_pass (H:=@tolerant Decimal.conversion) (H0:=UtcHost.host)
              scenario_A (root_of scenario_A) (record_of record_A))
    as (dto & Hret & Hiff & _).
  - reflexivity.
  - vm_compute. reflexivity.
  - exists dto. split; [exact Hret|]. apply Hiff. vm_compute. repeat split.
Defined.

Lemma delayed_iff_above_1000_witness :
  exists dto, handleEmail_utc scenario_C = Returned dto /\ retrasado dto = true.
Proof.
  destruct (delayed_iff_above_1000 (H:=@tolerant Decimal.conversion) (H0:=UtcHost.host)
              scenario_C (root_of scenario_C) (record_of record_C))
    as (dto & Hret & _ & _ & H1001).
  - reflexivity.
  - vm_compute. reflexivity.
  - exists dto. split; [exact Hret|]. apply H1001. vm_compute. reflexivity.
Defined.

Lemma sender_and_recipients_are_local_parts_witness :
  exists dto,
    handleEmail_utc scenario_A = Returned dto
    /\ emisor dto = "alice"
    /\ receptor dto = ["bob"; "carol"].
Proof.
  destruct (sender_and_recipients_are_local_parts
              (H:=@tolerant Decimal.conversion) (H0:=UtcHost.host)
              scenario_A (root_of scenario_A) (record_of record_A))
    as (dto & Hret & Hem & _ & _ & Hrec & _).
  - reflexivity.
  - vm_compute. reflexivity.
  - exists dto. split; [exact Hret|]. split.
    + rewrite Hem. vm_compute. reflexivity.
    + rewrite Hrec. vm_compute. reflexivity.
Defined.

Lemma summary_reads_first_record_only_witness :
  exists dto,
    handleEmail_utc scenario_A = Returned dto
    /\ handleEmail_utc two_records = Returned dto.
Proof.
  apply (summary_reads_first_record_only
           (H:=@tolerant Decimal.conversion) (H0:=UtcHost.host)
           scenario_A two_records (root_of scenario_A) (root_of two_records)
           (record_of record_A)).
  - reflexivity.
  - reflexivity.
  - vm_compute. reflexivity.
  - vm_compute. reflexivity.
Defined.

Lemma summary_has_no_at_sign_witness :
  exists dto,
    handleEmail_utc scenario_A = Returned dto
    /\ ~ has_char "@" (emisor dto)
    /\ Forall (fun recipient => ~ has_char "@" recipient) (receptor dto).
Proof.
  apply (summary_has_no_at_sign (H:=@tolerant Decimal.conversion) (H0:=UtcHost.host)
           scenario_A (root_of scenario_A) (record_of record_A)).
  - reflexivity.
  - vm_compute. reflexivity.
Defined.

Lemma empty_records_throw_TypeError_witness :
  (exists e, handleEmail_utc scenario_B = Thrown e /\ err_name e = "TypeError")
  /\ (forall dto, handleEmail_utc scenario_B <> Returned dto).
Proof.
  apply (empty_records_throw_TypeError
           (H:=@tolerant Decimal.conversion) (H0:=UtcHost.host)
           scenario_B (Populated.Root (root_of scenario_B))).
  - reflexivity.
  - vm_compute. reflexivity.
Defined.

Lemma invalid_timestamp_gives_Invalid_Date_witness :
  exists dto, handleEmail_utc no_timestamp = Returned dto /\ mes dto = "Invalid Date".
Proof.
  destruct (invalid_timestamp_gives_Invalid_Date
              (H:=@tolerant Decimal.conversion) (H0:=UtcHost.host)
              no_timestamp
              (Populated.Root (root_of no_timestamp))
              [Ref (Populated.Record_ (record_of record_no_timestamp))]
              (Populated.Record_ (record_of record_no_timestamp))
              (Populated.Ses (Record_.ses (record_of record_no_timestamp)))
              (Populated.Mail (Ses.mail (Record_.ses (record_of record_no_timestamp)))))
    as (_ & _ & Hreturns); try (vm_compute; reflexivity).
  apply (Hreturns
           (Populated.Receipt (Ses.receipt (Record_.ses (record_of record_no_timestamp))))
           (Verdict.mk "PASS") (Verdict.mk "PASS") (Verdict.mk "PASS")
           (Verdict.mk "PASS") (Verdict.mk "PASS") ["bob@example.com"]);
    vm_compute; reflexivity.
Defined.


Lemma lists_keep_length_and_order_witness :
  List.length (Mail.destination (@decode_Mail Decimal.conversion mail_mixed_destination))
  = 2%nat
  /\ Mail.destination (@decode_Mail Decimal.conversion mail_mixed_destination) !! 1%nat
     = Some "".
Proof.
  destruct (lists_keep_length_and_order (H:=Decimal.conversion))
    as (_ & _ & _ & _ & _ & _ & _ & _ & [_ Hdestination] & _ & _ & _ & _ & Hdefault & _).
  destruct (Hdestination mail_mixed_destination [JStr "a@x"; JNull]) as [Hlen Hat].
  - vm_compute. reflexivity.
  - split; [exact Hlen|]. rewrite (Hat 1%nat JNull eq_refl), Hdefault; [reflexivity|].
    intros [[s Hs]|[[n Hn]|[b Hb]]]; discriminate.
Defined.

Example mixed_list_decodes_in_place :
  list_of_scalar (@text Decimal.conversion)
    (Some (JArr [JStr "a@x"; JNull; JArr []; JStr "b"])) = ["a@x"; ""; ""; "b"].
Proof. reflexivity. Qed.

Example mixed_destination_decodes_in_place :
  Mail.destination (@decode_Mail Decimal.conversion mail_mixed_destination)
  = ["a@x"; ""].
Proof. vm_compute. reflexivity. Qed.

Example null_source_decodes_to_empty :
  Mail.source (@decode_Mail Decimal.conversion (obj [("source", JNull)])) = "".
Proof. vm_compute. reflexivity. Qed.

Example list_shaped_millis_decodes_to_zero :
  Receipt.processingTimeMillis
    (@decode_Receipt Decimal.conversion
       (obj [("processingTimeMillis", JArr [JNum 5000])])) = 0.
Proof. vm_compute. reflexivity. Qed.

Example missing_dmarcVerdict_decodes_to_new :
  Receipt.dmarcVerdict
    (@decode_Receipt Decimal.conversion (obj [("spfVerdict", verdict "PASS")]))
  = New.Verdict.
Proof. vm_compute. reflexivity. Qed.

Example scenario_C_decodes :
  Ses.mail (Record_.ses (record_of record_C)) = New.Mail.
Proof. vm_compute. reflexivity. Qed.


(** * Beyond the claims *)

(** ** [split], in full *)

Lemma split_concat sep s : String.concat (String sep "") (split sep s) = s.
Proof.
  induction s as [|c s IH]; [done|].
  simpl split. destruct (split_cons sep s) as (p & ps & Hsplit).
  rewrite Hsplit in *. destruct (Ascii.eqb c sep) eqn:E.
  - apply Ascii.eqb_eq in E. subst c.
    change (String sep (String.concat (String sep "") (p :: ps)) = String sep s).
    by rewrite IH.
  - rewrite <- IH. by destruct ps.
Qed.

Lemma split_parts_no_sep sep s : Forall (fun part => ~ has_char sep part) (split sep s).
Proof.
  unfold has_char. induction s as [|c s IH].
  - constructor; [by intros []|constructor].
  - simpl split. destruct (Ascii.eqb c sep) eqn:E.
    + constructor; [by intros []|done].
    + destruct (split sep s) as [|p ps].
      * constructor; [|constructor]. intros [->|[]].
        by rewrite Ascii.eqb_refl in E.
      * inversion IH as [|? ? Hp Hps]; subst. constructor; [|done].
        intros [->|Hin]; [by rewrite Ascii.eqb_refl in E|done].
Qed.

Lemma split_length sep s :
  List.length (split sep s) = S (count_occ ascii_dec (list_ascii_of_string s) sep).
Proof.
  induction s as [|c s IH]; [done|].
  simpl. destruct (ascii_dec c sep) as [->|Hne].
  - rewrite Ascii.eqb_refl. simpl. by rewrite IH.
  - assert (Ascii.eqb c sep = false) as -> by by apply Ascii.eqb_neq.
    destruct (split_cons sep s) as (p & ps & Hsplit). by rewrite Hsplit in *.
Qed.

(** X1. [split] cuts a string at every separator and nowhere else: the
    parts joined by the separator are the string again, no part contains
    the separator, and there is one part more than there are separators
    (so never an empty array, and one part, the string itself, when the
    separator does not occur). *)
Theorem split_cuts_at_every_separator sep s :
  String.concat (String sep "") (split sep s) = s
  /\ Forall (fun part => ~ has_char sep part) (split sep s)
  /\ List.length (split sep s) = S (count_occ ascii_dec (list_ascii_of_string s) sep)
  /\ (~ has_char sep s -> split sep s = [s]).
Proof.
  split; [apply split_concat|]. split; [apply split_parts_no_sep|].
  split; [apply split_length|].
  intros Hno. pose proof (split_length sep s) as Hlen.
  pose proof (split_concat sep s) as Hcat.
  rewrite (proj1 (count_occ_not_In ascii_dec _ _) Hno) in Hlen.
  destruct (split sep s) as [|p [|q ps]]; try done.
  simpl in Hcat. by rewrite Hcat.
Qed.

(** ** More on the local part *)

Lemma substring_before_app sep p d :
  ~ has_char sep p -> substring_before sep (p ++ String sep d) = p.
Proof.
  unfold has_char. induction p as [|c p IH]; intros Hno.
  - change (substring_before sep (String sep d) = ""). 
    by rewrite substring_before_String, Ascii.eqb_refl.
  - change (substring_before sep (String c (p ++ String sep d)) = String c p).
    rewrite substring_before_String. simpl in Hno.
    assert (Ascii.eqb c sep = false) as -> by (apply Ascii.eqb_neq; tauto).
    f_equal. apply IH. tauto.
Qed.

Lemma substring_before_idem sep s :
  substring_before sep (substring_before sep s) = substring_before sep s.
Proof. apply substring_before_whole, substring_before_no_sep. Qed.

Lemma substring_before_empty sep s :
  substring_before sep s = "" <-> s = "" \/ exists rest, s = String sep rest.
Proof.
  destruct s as [|c s]; [by split; [left|]|].
  rewrite substring_before_String. destruct (Ascii.eqb c sep) eqn:E.
  - apply Ascii.eqb_eq in E. subst c. split; [by right; eexists|done].
  - split; [done|]. intros [?|[rest [= -> _]]]; [done|].
    by rewrite Ascii.eqb_refl in E.
Qed.

(** ** More on the controller *)

(** X2. [handleEmail] passes an error of the decoder through unchanged
    (it catches nothing); every other error it throws is a [TypeError],
    raised by reading a property of a [null] or missing object. It
    returns a summary only when the root, [Records], the first record,
    [ses], [receipt], [mail], the spam, virus and SPF verdicts and
    [mail.destination] are all in place, and it does return one when the
    DKIM and DMARC verdicts are in place too. *)
Theorem handleEmail_outcomes `{JsonConvert} `{DateRuntime} body :
  (forall e, deserializeObject body = Thrown e -> handleEmail body = Thrown e)
  /\ (forall e, handleEmail body = Thrown e ->
        deserializeObject body = Thrown e
        \/ ((exists root, deserializeObject body = Returned root)
            /\ err_name e = "TypeError"))
  /\ (forall dto, handleEmail body = Returned dto ->
        exists root records record ses receipt mail spamVerdict virusVerdict
               spfVerdict destination,
          deserializeObject body = Returned (Ref root)
          /\ Nullable.Root.Records root = Ref records
          /\ records !! 0%nat = Some (Ref record)
          /\ Nullable.Record_.ses record = Ref ses
          /\ Nullable.Ses.receipt ses = Ref receipt
          /\ Nullable.Ses.mail ses = Ref mail
          /\ Nullable.Receipt.spamVerdict receipt = Ref spamVerdict
          /\ Nullable.Receipt.virusVerdict receipt = Ref virusVerdict
          /\ Nullable.Receipt.spfVerdict receipt = Ref spfVerdict
          /\ Nullable.Mail.destination mail = Ref destination)
  /\ (forall root records record ses receipt mail spamVerdict virusVerdict
             spfVerdict dkimVerdict dmarcVerdict destination,
        deserializeObject body = Returned (Ref root) ->
        Nullable.Root.Records root = Ref records ->
        records !! 0%nat = Some (Ref record) ->
        Nullable.Record_.ses record = Ref ses ->
        Nullable.Ses.receipt ses = Ref receipt ->
        Nullable.Ses.mail ses = Ref mail ->
        Nullable.Receipt.spamVerdict receipt = Ref spamVerdict ->
        Nullable.Receipt.virusVerdict receipt = Ref virusVerdict ->
        Nullable.Receipt.spfVerdict receipt = Ref spfVerdict ->
        Nullable.Receipt.dkimVerdict receipt = Ref dkimVerdict ->
        Nullable.Receipt.dmarcVerdict receipt = Ref dmarcVerdict ->
        Nullable.Mail.destination mail = Ref destination ->
        exists dto, handleEmail body = Returned dto).
Proof.
  split; [intros e; apply handleEmail_decoder_throws|].
  split; [intros e; apply handleEmail_Thrown_inv|].
  split.
  - intros dto Hret.
    destruct (handleEmail_Returned_inv body dto Hret)
      as (root & records & record & ses & receipt & mail & spamVerdict
          & virusVerdict & spfVerdict & destination
          & ? & ? & ? & ? & ? & ? & ? & ? & ? & ? & _).
    by exists root, records, record, ses, receipt, mail, spamVerdict,
      virusVerdict, spfVerdict, destination.
  - intros root records record ses receipt mail spamVerdict virusVerdict
      spfVerdict dkimVerdict dmarcVerdict destination.
    apply handleEmail_returns_nullable.
Qed.

(** X3. For every decoded root with a first record, the summary's [spam]
    flag is true exactly when [receipt.spamVerdict.status] is the literal
    "PASS", and its [virus] flag exactly when
    [receipt.virusVerdict.status] is; each flag looks at its own verdict
    only. *)
Theorem spam_and_virus_iff_pass `{JsonConvert} `{DateRuntime} body root record :
  deserializeObject body = Returned (Ref (Populated.Root root)) ->
  Root.Records root !! 0%nat = Some record ->
  let receipt := Ses.receipt (Record_.ses record) in
  exists dto,
    handleEmail body = Returned dto
    /\ (spam dto = true <-> Verdict.status (Receipt.spamVerdict receipt) = "PASS")
    /\ (virus dto = true <-> Verdict.status (Receipt.virusVerdict receipt) = "PASS").
Proof.
  intros Hdec Hfirst receipt.
  destruct (handleEmail_returns body root record Hdec Hfirst)
    as (dto & Hret & Hspam & Hvirus & _).
  exists dto. split; [done|]. fold receipt in Hspam, Hvirus.
  rewrite Hspam, Hvirus. unfold PASS. by rewrite !String.eqb_eq.
Qed.

(** X4. The summary depends on nine fields of the first record and on
    nothing else: the five verdict statuses, [processingTimeMillis],
    and [mail.timestamp], [mail.source], [mail.destination]. Two payloads
    whose first records agree on these get the same summary, whatever
    [eventVersion], [eventSource], [receipt.timestamp], the headers or the
    action are. *)
Theorem summary_reads_nine_fields
    `{JsonConvert} `{DateRuntime} body1 body2 root1 root2 record1 record2 :
  deserializeObject body1 = Returned (Ref (Populated.Root root1)) ->
  deserializeObject body2 = Returned (Ref (Populated.Root root2)) ->
  Root.Records root1 !! 0%nat = Some record1 ->
  Root.Records root2 !! 0%nat = Some record2 ->
  let receipt1 := Ses.receipt (Record_.ses record1) in
  let receipt2 := Ses.receipt (Record_.ses record2) in
  let mail1 := Ses.mail (Record_.ses record1) in
  let mail2 := Ses.mail (Record_.ses record2) in
  Verdict.status (Receipt.spamVerdict receipt1) = Verdict.status (Receipt.spamVerdict receipt2) ->
  Verdict.status (Receipt.virusVerdict receipt1) = Verdict.status (Receipt.virusVerdict receipt2) ->
  Verdict.status (Receipt.spfVerdict receipt1) = Verdict.status (Receipt.spfVerdict receipt2) ->
  Verdict.status (Receipt.dkimVerdict receipt1) = Verdict.status (Receipt.dkimVerdict receipt2) ->
  Verdict.status (Receipt.dmarcVerdict receipt1) = Verdict.status (Receipt.dmarcVerdict receipt2) ->
  Receipt.processingTimeMillis receipt1 = Receipt.processingTimeMillis receipt2 ->
  Mail.timestamp mail1 = Mail.timestamp mail2 ->
  Mail.source mail1 = Mail.source mail2 ->
  Mail.destination mail1 = Mail.destination mail2 ->
  exists dto, handleEmail body1 = Returned dto /\ handleEmail body2 = Returned dto.
Proof.
  intros Hdec1 Hdec2 Hfirst1 Hfirst2 receipt1 receipt2 mail1 mail2
    Hspam Hvirus Hspf Hdkim Hdmarc Hmillis Hts Hsrc Hdst.
  destruct (handleEmail_returns body1 root1 record1 Hdec1 Hfirst1)
    as (dto1 & Hret1 & S1 & V1 & D1 & M1 & R1 & E1 & C1).
  destruct (handleEmail_returns body2 root2 record2 Hdec2 Hfirst2)
    as (dto2 & Hret2 & S2 & V2 & D2 & M2 & R2 & E2 & C2).
  fold receipt1 in S1, V1, D1, R1. fold receipt2 in S2, V2, D2, R2.
  fold mail1 in M1, E1, C1. fold mail2 in M2, E2, C2.
  exists dto1. split; [done|]. rewrite Hret2. f_equal.
  destruct dto1, dto2. simpl in *. subst.
  by rewrite Hspam, Hvirus, Hspf, Hdkim, Hdmarc, Hmillis, Hts, Hsrc, Hdst.
Qed.

(** X5. On a host whose month names are never the text "Invalid Date",
    the summary's [mes] tells a caller whether [mail.timestamp] was
    recognised: it is "Invalid Date" exactly when the timestamp does not
    parse, and the host's month name of the parsed time otherwise. *)
Theorem mes_flags_unparsed_timestamp `{JsonConvert} `{DateRuntime} body root record :
  (forall t, month_long t <> "Invalid Date") ->
  deserializeObject body = Returned (Ref (Populated.Root root)) ->
  Root.Records root !! 0%nat = Some record ->
  let timestamp := Mail.timestamp (Ses.mail (Record_.ses record)) in
  exists dto,
    handleEmail body = Returned dto
    /\ (mes dto = "Invalid Date" <-> Date_parse timestamp = None)
    /\ (forall t, Date_parse timestamp = Some t -> mes dto = month_long t).
Proof.
  intros Hhost Hdec Hfirst timestamp.
  destruct (handleEmail_returns body root record Hdec Hfirst)
    as (dto & Hret & _ & _ & _ & Hmes & _).
  exists dto. split; [done|]. fold timestamp in Hmes. rewrite Hmes.
  unfold Date_month. destruct (Date_parse timestamp) as [t|].
  - split; [|by intros t' [= <-]]. split; [|done]. intros Hbad. by apply Hhost in Hbad.
  - split; done.
Qed.

(** X6. The domain of an address is ignored: when [mail.source] is a
    name without '@' followed by '@' and anything at all (further '@'
    included), the sender is that name; and when each element of
    [mail.destination] is such an address, the recipients are the names,
    in order. *)
Theorem domains_are_dropped `{JsonConvert} `{DateRuntime} body root record name domain names :
  deserializeObject body = Returned (Ref (Populated.Root root)) ->
  Root.Records root !! 0%nat = Some record ->
  let mail := Ses.mail (Record_.ses record) in
  ~ has_char "@" name ->
  Mail.source mail = (name ++ String "@" domain)%string ->
  Forall2 (fun address local =>
             ~ has_char "@" local
             /\ exists d, address = (local ++ String "@" d)%string)
          (Mail.destination mail) names ->
  exists dto,
    handleEmail body = Returned dto
    /\ emisor dto = name
    /\ receptor dto = names.
Proof.
  intros Hdec Hfirst mail Hname Hsrc Hdst.
  destruct (handleEmail_returns body root record Hdec Hfirst)
    as (dto & Hret & _ & _ & _ & _ & _ & Hem & Hrec).
  fold mail in Hem, Hrec. exists dto. split; [done|]. split.
  - by rewrite Hem, first_split, Hsrc, substring_before_app.
  - rewrite Hrec. clear Hrec Hsrc. induction Hdst as [|a l As Ls [Hl [d ->]] _ IH]; [done|].
    simpl. by rewrite first_split, substring_before_app, IH.
Qed.

(** X7. The names in a summary are fixed points: a payload whose
    [mail.source] and [mail.destination] are the sender and the recipients
    of an earlier summary gets the same sender and the same recipients. *)
Theorem summary_names_are_fixed_points
    `{JsonConvert} `{DateRuntime} body1 body2 dto1 root2 record2 :
  handleEmail body1 = Returned dto1 ->
  deserializeObject body2 = Returned (Ref (Populated.Root root2)) ->
  Root.Records root2 !! 0%nat = Some record2 ->
  Mail.source (Ses.mail (Record_.ses record2)) = emisor dto1 ->
  Mail.destination (Ses.mail (Record_.ses record2)) = receptor dto1 ->
  exists dto2,
    handleEmail body2 = Returned dto2
    /\ emisor dto2 = emisor dto1
    /\ receptor dto2 = receptor dto1.
Proof.
  intros Hret1 Hdec2 Hfirst2 Hsrc Hdst.
  destruct (handleEmail_Returned_inv body1 dto1 Hret1)
    as (? & ? & ? & ? & ? & mail1 & ? & ? & ? & destination1
        & _ & _ & _ & _ & _ & _ & _ & _ & _ & _ & _ & _ & _ & _ & Hem1 & Hrec1 & _).
  destruct (handleEmail_returns body2 root2 record2 Hdec2 Hfirst2)
    as (dto2 & Hret2 & _ & _ & _ & _ & _ & Hem2 & Hrec2).
  exists dto2. split; [done|]. rewrite Hem2, Hrec2, Hsrc, Hdst, Hem1, Hrec1. split.
  - by rewrite !first_split, substring_before_idem.
  - rewrite List.map_map. apply map_ext. intros a.
    by rewrite !first_split, substring_before_idem.
Qed.

(** X8. The sender is the empty text exactly when [mail.source] is empty
    or starts with '@': an absent source and an address without a name
    cannot be told apart in the summary. The recipients are the empty
    list exactly when [mail.destination] is. *)
Theorem empty_sender_iff `{JsonConvert} `{DateRuntime} body root record :
  deserializeObject body = Returned (Ref (Populated.Root root)) ->
  Root.Records root !! 0%nat = Some record ->
  let mail := Ses.mail (Record_.ses record) in
  exists dto,
    handleEmail body = Returned dto
    /\ (emisor dto = "" <->
        Mail.source mail = "" \/ exists rest, Mail.source mail = String "@" rest)
    /\ (receptor dto = [] <-> Mail.destination mail = []).
Proof.
  intros Hdec Hfirst mail.
  destruct (handleEmail_returns body root record Hdec Hfirst)
    as (dto & Hret & _ & _ & _ & _ & _ & Hem & Hrec).
  fold mail in Hem, Hrec. exists dto. split; [done|]. split.
  - rewrite Hem, first_split. apply substring_before_empty.
  - rewrite Hrec. by destruct (Mail.destination mail).
Qed.

(** ** The further theorems at the sample payloads *)

Lemma month_name_not_Invalid_Date t : UtcHost.month_name t <> "Invalid Date".
Proof.
  unfold UtcHost.month_name.
  generalize (Z.to_nat (UtcHost.month_from_days (t / UtcHost.ms_per_day) - 1)).
  intros n. do 12 (destruct n as [|n]; [discriminate|]). by destruct n.
Qed.

Lemma spam_and_virus_iff_pass_witness :
  exists dto, handleEmail_utc scenario_A = Returned dto /\ spam dto = true.
Proof.
  destruct (spam_and_virus_iff_pass (H:=@tolerant Decimal.conversion) (H0:=UtcHost.host)
              scenario_A (root_of scenario_A) (record_of record_A))
    as (dto & Hret & Hspam & _).
  - reflexivity.
  - vm_compute. reflexivity.
  - exists dto. split; [exact Hret|]. apply Hspam. vm_compute. reflexivity.
Defined.

Lemma summary_reads_nine_fields_witness :
  exists dto,
    handleEmail_utc scenario_A = Returned dto
    /\ handleEmail_utc (payload [record_A_read_fields]) = Returned dto.
Proof.
  apply (summary_reads_nine_fields
           (H:=@tolerant Decimal.conversion) (H0:=UtcHost.host)
           scenario_A (payload [record_A_read_fields])
           (root_of scenario_A) (root_of (payload [record_A_read_fields]))
           (record_of record_A) (record_of record_A_read_fields));
    vm_compute; reflexivity.
Defined.

Lemma mes_flags_unparsed_timestamp_witness :
  exists dto, handleEmail_utc no_timestamp = Returned dto /\ mes dto = "Invalid Date".
Proof.
  destruct (mes_flags_unparsed_timestamp
              (H:=@tolerant Decimal.conversion) (H0:=UtcHost.host)
              no_timestamp (root_of no_timestamp) (record_of record_no_timestamp))
    as (dto & Hret & Hiff & _).
  - exact month_name_not_Invalid_Date.
  - reflexivity.
  - vm_compute. reflexivity.
  - exists dto. split; [exact Hret|]. apply Hiff. vm_compute. reflexivity.
Defined.

Lemma domains_are_dropped_witness :
  exists dto,
    handleEmail_utc scenario_A = Returned dto
    /\ emisor dto = "alice"
    /\ receptor dto = ["bob"; "carol"].
Proof.
  apply (domains_are_dropped (H:=@tolerant Decimal.conversion) (H0:=UtcHost.host)
           scenario_A (root_of scenario_A) (record_of record_A)
           "alice" "example.com" ["bob"; "carol"]).
  - reflexivity.
  - vm_compute. reflexivity.
  - vm_compute. intros H. repeat (destruct H as [H|H]; [discriminate H|]). exact H.
  - vm_compute. reflexivity.
  - assert (Mail.destination (Ses.mail (Record_.ses (record_of record_A)))
            = ["bob@example.com"; "carol@example.org"]) as -> by (vm_compute; reflexivity).
    repeat constructor.
    + vm_compute. intros H. repeat (destruct H as [H|H]; [discriminate H|]). exact H.
    + by exists "example.com".
    + vm_compute. intros H. repeat (destruct H as [H|H]; [discriminate H|]). exact H.
    + by exists "example.org".
Defined.

Lemma summary_names_are_fixed_points_witness :
  exists dto,
    handleEmail_utc (payload [record_names_only]) = Returned dto
    /\ emisor dto = "alice"
    /\ receptor dto = ["bob"; "carol"].
Proof.
  apply (summary_names_are_fixed_points
           (H:=@tolerant Decimal.conversion) (H0:=UtcHost.host)
           scenario_A (payload [record_names_only])
           (mkResponseDTO true false true "March" false "alice" ["bob"; "carol"])
           (root_of (payload [record_names_only])) (record_of record_names_only));
    vm_compute; reflexivity.
Defined.

Lemma empty_sender_iff_witness :
  exists dto, handleEmail_utc scenario_C = Returned dto /\ emisor dto = "".
Proof.
  destruct (empty_sender_iff (H:=@tolerant Decimal.conversion) (H0:=UtcHost.host)
              scenario_C (root_of scenario_C) (record_of record_C))
    as (dto & Hret & Hiff & _).
  - reflexivity.
  - vm_compute. reflexivity.
  - exists dto. split; [exact Hret|]. apply Hiff. left. vm_compute. reflexivity.
Defined.

(** X9. Every summary [handleEmail] returns, whatever the decoder put
    into the properties that are not read, is read off the first record:
    the root, [Records], the first record, [ses], [receipt], [mail], the
    spam, virus and SPF verdicts and [mail.destination] were in place;
    [spam], [virus] and [retrasado] are the comparisons of lines 165, 166
    and 169; [dns] is true exactly when the SPF status is "PASS" and the
    DKIM and DMARC verdicts are in place with status "PASS"; [mes] is the
    month of [mail.timestamp]; [emisor] and [receptor] are the texts
    before the first '@' of [mail.source] and of each destination. *)
Theorem every_summary_is_read_off_the_first_record
    `{JsonConvert} `{DateRuntime} body dto :
  handleEmail body = Returned dto ->
  exists root records record ses receipt mail spamVerdict virusVerdict spfVerdict
         destination,
    deserializeObject body = Returned (Ref root)
    /\ Nullable.Root.Records root = Ref records
    /\ records !! 0%nat = Some (Ref record)
    /\ Nullable.Record_.ses record = Ref ses
    /\ Nullable.Ses.receipt ses = Ref receipt
    /\ Nullable.Ses.mail ses = Ref mail
    /\ Nullable.Receipt.spamVerdict receipt = Ref spamVerdict
    /\ Nullable.Receipt.virusVerdict receipt = Ref virusVerdict
    /\ Nullable.Receipt.spfVerdict receipt = Ref spfVerdict
    /\ Nullable.Mail.destination mail = Ref destination
    /\ (spam dto = true <-> Verdict.status spamVerdict = "PASS")
    /\ (virus dto = true <-> Verdict.status virusVerdict = "PASS")
    /\ (dns dto = true <->
        Verdict.status spfVerdict = "PASS"
        /\ exists dkimVerdict dmarcVerdict,
             Nullable.Receipt.dkimVerdict receipt = Ref dkimVerdict
             /\ Nullable.Receipt.dmarcVerdict receipt = Ref dmarcVerdict
             /\ Verdict.status dkimVerdict = "PASS"
             /\ Verdict.status dmarcVerdict = "PASS")
    /\ mes dto = Date_month (Nullable.Mail.timestamp mail)
    /\ (retrasado dto = true <-> 1000 < Nullable.Receipt.processingTimeMillis receipt)
    /\ emisor dto = substring_before "@" (Nullable.Mail.source mail)
    /\ receptor dto = List.map (substring_before "@") destination.
Proof.
  intros Hret.
  destruct (handleEmail_Returned_inv body dto Hret)
    as (root & records & record & ses & receipt & mail & spamVerdict
        & virusVerdict & spfVerdict & destination
        & ? & ? & ? & ? & ? & ? & ? & ? & ? & ?
        & Hspam & Hvirus & Hmes & Hdelayed & Hem & Hrec & Hdns).
  exists root, records, record, ses, receipt, mail, spamVerdict, virusVerdict,
    spfVerdict, destination.
  do 10 (split; [done|]).
  split; [rewrite Hspam; apply String.eqb_eq|].
  split; [rewrite Hvirus; apply String.eqb_eq|].
  split; [done|]. split; [done|].
  split; [rewrite Hdelayed; apply Z.ltb_lt|].
  split; [by rewrite Hem, first_split|].
  rewrite Hrec. apply map_ext. intros a. apply first_split.
Qed.

Lemma every_summary_is_read_off_the_first_record_witness :
  exists destination, ["bob"; "carol"] = List.map (substring_before "@") destination.
Proof.
  destruct (every_summary_is_read_off_the_first_record
              (H:=@tolerant Decimal.conversion) (H0:=UtcHost.host) scenario_A
              (mkResponseDTO true false true "March" false "alice" ["bob"; "carol"]))
    as (? & ? & ? & ? & ? & ? & ? & ? & ? & destination & Hrest).
  - vm_compute. reflexivity.
  - exists destination. apply Hrest.
Defined.
